(** * blog/views.py: the view layer of the blog, embedded in Rocq

    The four views of [blog/views.py] ([post_detail], [post_list],
    [post_search], [post_share_by_email]) are translated into functions
    over an explicit world: the relational store (posts, tags, comments)
    and the log of calls to the mail transport.  Exceptions are values of
    [PyExc]; a view is a computation in a small state-and-exception monad,
    so that a write made before an exception stays visible, as in Python. *)

From Stdlib Require Import ZArith QArith Lia Ascii String.
From stdpp Require Import base decidable option list strings gmap sorting.

Local Open Scope string_scope.
Local Open Scope list_scope.
Local Open Scope Z_scope.

(** ** Python exceptions *)

(** The exceptions the views can meet.  [KeyboardInterrupt], [SystemExit]
    and [GeneratorExit] derive from [BaseException] only; every other one
    derives from [Exception]. *)
Inductive PyExc : Type :=
| Http404
| MultipleObjectsReturned
| PageNotAnInteger
| EmptyPage
| ZeroDivisionError
| NegativeIndexing
| SMTPException
| ConnectionRefusedError
| BadHeaderError
| KeyboardInterrupt
| SystemExit
| GeneratorExit.

#[global] Instance PyExc_eq_dec : EqDecision PyExc.
Proof. solve_decision. Defined.

(** [isinstance(e, Exception)]: what an [except Exception:] clause matches. *)
Definition isinstance_Exception (e : PyExc) : bool :=
  match e with
  | KeyboardInterrupt | SystemExit | GeneratorExit => false
  | _ => true
  end.

(** A pure computation that may raise. *)
Definition Res (A : Type) : Type := PyExc + A.

(** ** Data model *)

Inductive Status : Type := DRAFT | PUBLISHED.

#[global] Instance Status_eq_dec : EqDecision Status.
Proof. solve_decision. Defined.

(** The publish timestamp, by the components the date lookups
    [publish__year], [publish__month] and [publish__day] extract, and the
    second of the day. *)
Record DateTime : Type := mkDateTime {
  year : Z;
  month : Z;
  day : Z;
  second_of_day : Z
}.

Record Post : Type := mkPost {
  id : Z;
  slug : string;
  title : string;
  body : string;
  status : Status;
  publish : DateTime;
  tags : gset Z
}.

Record Tag : Type := mkTag {
  tag_id : Z;
  tag_slug : string;
  tag_name : string
}.

(** A comment; [comment_post] is the foreign key to its post, [None] on an
    instance that has no post assigned. *)
Record Comment : Type := mkComment {
  comment_post : option Z;
  comment_name : string;
  comment_email : string;
  comment_body : string;
  active : bool
}.

Record Store : Type := mkStore {
  post_table : list Post;
  tag_table : list Tag;
  comment_table : list Comment
}.

Record Email : Type := mkEmail {
  subject : string;
  message : string;
  from_email : string;
  recipient_list : list string
}.

(** The world a request runs in: the store and every call made to
    [send_mail], in order. *)
Record World : Type := mkWorld {
  db : Store;
  send_mail_calls : list Email
}.

(** ** Requests and forms *)

Record HttpRequest : Type := mkRequest {
  method : string;
  GET : gmap string string;
  POST : gmap string string
}.

(** [form.errors]: error messages by field name. *)
Definition ErrorDict : Type := list (string * string).

(** A form object as the template receives it: [Unbound] is [Form()], a
    blank form; [Bound data errors] is [Form(data)] after [is_valid()], which
    carries the submitted data and the errors found in it. *)
Inductive Form : Type :=
| Unbound
| Bound (data : gmap string string) (errors : ErrorDict).

(** [cleaned_data] of [EmailPostForm]. *)
Record ShareData : Type := mkShareData {
  cd_name : string;
  cd_email : string;
  cd_destination : string;
  cd_comments : string
}.

(** What the views take from outside [views.py]: the three forms of
    [forms.py], the trigram similarity of the database, the URL of a post and
    the mail transport.  A form's validation returns either its errors or its
    cleaned data; for the model form [CommentForm] the cleaned data is the
    unsaved instance that [save(commit=False)] builds.  [smtp] tells what
    [send_mail] does with a message: [None] when it is accepted, [Some e]
    when [e] is raised. *)
Class External : Type := {
  CommentForm_clean : gmap string string -> ErrorDict + Comment;
  EmailPostForm_clean : gmap string string -> ErrorDict + ShareData;
  SearchForm_clean : gmap string string -> ErrorDict + string;
  TrigramSimilarity : string -> string -> Q;
  build_absolute_uri : HttpRequest -> Post -> string;
  smtp : Email -> option PyExc
}.

(** ** The state-and-exception monad *)

Definition M (A : Type) : Type := World -> Res A * World.

Definition ret {A} (a : A) : M A := fun w => (inr a, w).

Definition bind {A B} (m : M A) (k : A -> M B) : M B :=
  fun w =>
    match m w with
    | (inl e, w') => (inl e, w')
    | (inr a, w') => k a w'
    end.

Definition lift {A} (r : Res A) : M A := fun w => (r, w).

Definition get_db : M Store := fun w => (inr (db w), w).

Notation "x <- m ;; k" := (bind m (fun x => k))
  (at level 100, m at next level, right associativity).

(** [try: m except <classes matched by catches>: handler]. *)
Definition try_except {A} (m : M A) (catches : PyExc -> bool) (handler : M A)
  : M A :=
  fun w =>
    match m w with
    | (inl e, w') => if catches e then handler w' else (inl e, w')
    | (inr a, w') => (inr a, w')
    end.

(** ** The store's query interface *)

(** [QuerySet.get()] behind [get_object_or_404]: the only matching row, or
    [Http404] when none matches; several matches raise
    [MultipleObjectsReturned]. *)
Definition get_object_or_404 {A} (rows : list A) (cond : A -> bool) : Res A :=
  match List.filter cond rows with
  | [] => inl Http404
  | [x] => inr x
  | _ :: _ :: _ => inl MultipleObjectsReturned
  end.

Definition is_published (p : Post) : bool :=
  bool_decide (status p = PUBLISHED).

(** Modelled from the spec: [models.py] is missing; [Post.objects] is the
    manager over the whole post table, every post of the store. *)
Definition Post_objects (s : Store) : list Post := post_table s.

(** Modelled from the spec: [models.py] is missing; [Post.published] is the
    store's published view, the posts whose status is PUBLISHED. *)
Definition Post_published (s : Store) : list Post :=
  List.filter is_published (post_table s).

(** [queryset[:n]]: a negative bound is refused when the slice is taken
    ([ValueError], an [AssertionError] in older versions of Django); the
    model has the one name [NegativeIndexing] for it. *)
Definition slice_to {A} (n : Z) (l : list A) : Res (list A) :=
  if n <? 0 then inl NegativeIndexing else inr (firstn (Z.to_nat n) l).

(** Lexicographic comparison of timestamps. *)
Definition dt_compare (a b : DateTime) : comparison :=
  match year a ?= year b with
  | Eq =>
    match month a ?= month b with
    | Eq =>
      match day a ?= day b with
      | Eq => second_of_day a ?= second_of_day b
      | c => c
      end
    | c => c
    end
  | c => c
  end.

Definition dt_leb (a b : DateTime) : bool :=
  match dt_compare a b with Gt => false | _ => true end.

(** ** [int(...)] on a query parameter *)

(** A value handed to [Paginator.page]: [request.GET.get('page')] is [None]
    or a string; the view itself passes integers. *)
Inductive PyVal : Type :=
| PyNone
| PyStr (s : string)
| PyInt (n : Z).

(** What [int] takes from the interpreter: the Unicode database, asked
    only about characters outside ASCII, and the limit on the number of
    digits of [sys.set_int_max_str_digits] (0 when there is none). *)
Class PyRuntime : Type := {
  Py_UNICODE_ISSPACE : N -> bool;
  Py_UNICODE_TODECIMAL : N -> option N;
  int_max_str_digits : nat
}.

(** A [string] holds the UTF-8 bytes of a value. *)
Definition bytes (s : string) : list N :=
  List.map N_of_ascii (list_ascii_of_string s).

(** The UTF-8 decoder, byte by byte: at the start of a character, or inside
    one with [more] bytes to come after the next, whose value so far is
    [acc] and whose next byte must lie between [lo] and [hi]. *)
Inductive Utf8State : Type :=
| Utf8Start
| Utf8Need (more : nat) (acc lo hi : N).

(** The code points of a byte sequence; [None] when it is not well-formed
    UTF-8.  Such a parameter reaches the view with replacement characters,
    which [int] refuses. *)
Fixpoint utf8_decode (st : Utf8State) (bs : list N) : option (list N) :=
  match bs with
  | [] => match st with Utf8Start => Some [] | Utf8Need _ _ _ _ => None end
  | b :: rest =>
    match st with
    | Utf8Start =>
      if (b <? 128)%N then cons b <$> utf8_decode Utf8Start rest
      else if ((194 <=? b) && (b <=? 223))%N
      then utf8_decode (Utf8Need 0 (b - 192) 128 191) rest
      else if (b =? 224)%N then utf8_decode (Utf8Need 1 0 160 191) rest
      else if ((225 <=? b) && (b <=? 236) || (238 <=? b) && (b <=? 239))%N
      then utf8_decode (Utf8Need 1 (b - 224) 128 191) rest
      else if (b =? 237)%N then utf8_decode (Utf8Need 1 13 128 159) rest
      else if (b =? 240)%N then utf8_decode (Utf8Need 2 0 144 191) rest
      else if ((241 <=? b) && (b <=? 243))%N
      then utf8_decode (Utf8Need 2 (b - 240) 128 191) rest
      else if (b =? 244)%N then utf8_decode (Utf8Need 2 4 128 143) rest
      else None
    | Utf8Need more acc lo hi =>
      if ((lo <=? b) && (b <=? hi))%N then
        let acc' := (acc * 64 + (b - 128))%N in
        match more with
        | O => cons acc' <$> utf8_decode Utf8Start rest
        | S more' => utf8_decode (Utf8Need more' acc' 128 191) rest
        end
      else None
    end
  end.

(** [_PyUnicode_TransformDecimalAndSpaceToASCII]: outside ASCII, white space
    becomes a blank and a decimal digit its ASCII digit; at the first other
    character the text is cut and ends with a question mark. *)
Fixpoint transform_chars {rt : PyRuntime} (cps : list N) : list N :=
  match cps with
  | [] => []
  | ch :: rest =>
    if (ch <? 127)%N then ch :: transform_chars rest
    else if Py_UNICODE_ISSPACE ch then 32%N :: transform_chars rest
    else
      match Py_UNICODE_TODECIMAL ch with
      | Some d => (48 + d)%N :: transform_chars rest
      | None => [63%N]
      end
  end.

(** An ASCII string is taken as it is. *)
Definition TransformDecimalAndSpaceToASCII {rt : PyRuntime} (cps : list N)
  : list N :=
  if forallb (fun ch => (ch <? 128)%N) cps then cps else transform_chars cps.

(** [Py_ISSPACE]: blank, tab, line feed, vertical tab, form feed, carriage
    return. *)
Definition Py_ISSPACE (c : N) : bool :=
  ((9 <=? c) && (c <=? 13) || (c =? 32))%N.

Fixpoint skip_spaces (l : list N) : list N :=
  match l with
  | c :: rest => if Py_ISSPACE c then skip_spaces rest else l
  | [] => []
  end.

Definition digit_of (c : N) : option Z :=
  if ((48 <=? c) && (c <=? 57))%N then Some (Z.of_N c - 48) else None.

(** The digits of a base 10 literal, with single underscores allowed between
    two digits: the value, the number of digits and what follows;
    [after_digit] tells whether the previous character was a digit. *)
Fixpoint scan_digits (l : list N) (acc : Z) (digits : nat)
  (after_digit : bool) : option (Z * nat * list N) :=
  match l with
  | [] => if after_digit then Some (acc, digits, []) else None
  | c :: rest =>
    match digit_of c with
    | Some d => scan_digits rest (10 * acc + d) (S digits) true
    | None =>
      if (c =? 95)%N then
        if after_digit then scan_digits rest acc digits false else None
      else if after_digit then Some (acc, digits, l) else None
    end
  end.

(** [PyLong_FromString] in base 10: white space, a sign, the digits, white
    space, and nothing more; more digits than the limit are refused (the
    limit is not looked at up to 640 digits). *)
Definition PyLong_FromString {rt : PyRuntime} (l : list N) : option Z :=
  let l1 := skip_spaces l in
  let signed :=
    match l1 with
    | c :: rest =>
      if (c =? 43)%N then (false, rest)
      else if (c =? 45)%N then (true, rest)
      else (false, l1)
    | [] => (false, l1)
    end in
  match scan_digits signed.2 0 0 false with
  | None => None
  | Some (v, digits, rest) =>
    if ((640 <? digits) && (0 <? int_max_str_digits)
        && (int_max_str_digits <? digits))%nat
    then None
    else
      match skip_spaces rest with
      | [] => Some (if signed.1 then - v else v)
      | _ :: _ => None
      end
  end.

(** [int(s)] for a string: [None] stands for [ValueError]. *)
Definition py_int {rt : PyRuntime} (s : string) : option Z :=
  match utf8_decode Utf8Start (bytes s) with
  | None => None
  | Some cps => PyLong_FromString (TransformDecimalAndSpaceToASCII cps)
  end.

(** ** [django.core.paginator] *)

(** A paginator with the defaults the view uses: no orphans and an empty
    first page allowed. *)
Record Paginator : Type := mkPaginator {
  object_list : list Post;
  per_page : Z
}.

Record Page : Type := mkPage {
  page_object_list : list Post;
  number : Z
}.

Definition count (pg : Paginator) : Z := Z.of_nat (length (object_list pg)).

(** [ceil(hits / per_page)] with [hits = max(1, count)]. *)
Definition num_pages (pg : Paginator) : Res Z :=
  let hits := Z.max 1 (count pg) in
  if per_page pg =? 0 then inl ZeroDivisionError
  else inr (- ((- hits) / per_page pg)).

(** [int(number)]; [None] stands for the [TypeError] or [ValueError] that
    [validate_number] turns into [PageNotAnInteger]. *)
Definition as_int {rt : PyRuntime} (v : PyVal) : option Z :=
  match v with
  | PyNone => None
  | PyStr s => py_int s
  | PyInt n => Some n
  end.

Definition validate_number {rt : PyRuntime} (pg : Paginator) (v : PyVal)
  : Res Z :=
  match as_int v with
  | None => inl PageNotAnInteger
  | Some n =>
    if n <? 1 then inl EmptyPage
    else
      match num_pages pg with
      | inl e => inl e
      | inr np =>
        if (np <? n) && negb (n =? 1) then inl EmptyPage else inr n
      end
  end.

(** [object_list[bottom:top]] on a queryset. *)
Definition slice {A} (bottom top : Z) (l : list A) : Res (list A) :=
  if (bottom <? 0) || (top <? 0) then inl NegativeIndexing
  else inr (firstn (Z.to_nat (top - bottom)) (skipn (Z.to_nat bottom) l)).

Definition page {rt : PyRuntime} (pg : Paginator) (v : PyVal) : Res Page :=
  match validate_number pg v with
  | inl e => inl e
  | inr n =>
    let bottom := (n - 1) * per_page pg in
    let top := bottom + per_page pg in
    let top := if count pg <=? top then count pg else top in
    match slice bottom top (object_list pg) with
    | inl e => inl e
    | inr l => inr {| page_object_list := l; number := n |}
    end
  end.

(** ** Orderings of the two ranked queries *)

(** [order_by('-same_tags', '-publish')] on rows annotated with
    [same_tags]: more shared tags first, then the later timestamp. *)
Definition same_tags_publish_leb (a b : Post * nat) : bool :=
  (b.2 <? a.2)%nat
  || ((a.2 =? b.2)%nat && dt_leb (publish b.1) (publish a.1)).

Definition by_same_tags_publish : relation (Post * nat) :=
  fun a b => same_tags_publish_leb a b = true.

(** [order_by('-similarity')] on rows annotated with [similarity]. *)
Definition by_similarity : relation (Post * Q) :=
  fun a b => Qle_bool b.2 a.2 = true.

#[global] Instance by_same_tags_publish_dec a b :
  Decision (by_same_tags_publish a b).
Proof. unfold by_same_tags_publish. apply _. Defined.

#[global] Instance by_similarity_dec a b : Decision (by_similarity a b).
Proof. unfold by_similarity. apply _. Defined.

(** The search threshold, [0.003]. *)
Definition threshold : Q := 3 # 1000.

(** [Greatest(a, b)]. *)
Definition Greatest (a b : Q) : Q := if Qle_bool a b then b else a.

(** ** Responses *)

(** [render(request, template, context)]. *)
Record HttpResponse (C : Type) : Type := mkResponse {
  template : string;
  context : C
}.
Arguments mkResponse {C} _ _.
Arguments template {C} _.
Arguments context {C} _.

Definition render {C} (template_name : string) (ctx : C) : M (HttpResponse C) :=
  ret (mkResponse template_name ctx).

Record DetailContext : Type := mkDetailContext {
  detail_post : Post;
  detail_comments : list Comment;
  detail_new_comment : option Comment;
  detail_comment_form : option Form;
  detail_similar_posts : list (Post * nat)
}.

Record ListContext : Type := mkListContext {
  list_page : option string;
  list_posts : Page;
  list_tag : option Tag
}.

Record SearchContext : Type := mkSearchContext {
  search_form : Form;
  search_query : option string;
  search_results : list (Post * Q)
}.

Record ShareContext : Type := mkShareContext {
  share_post : Post;
  share_form : Form;
  share_sent : bool;
  share_sent_failed : bool
}.

(** ** Writes *)

(** [new_comment.post = post]. *)
Definition set_post (c : Comment) (p : Post) : Comment :=
  {| comment_post := Some (id p);
     comment_name := comment_name c;
     comment_email := comment_email c;
     comment_body := comment_body c;
     active := active c |}.

(** [comment.save()]: one more row in the comment table. *)
Definition Comment_save (c : Comment) : M unit :=
  fun w =>
    (inr tt,
     {| db := {| post_table := post_table (db w);
                 tag_table := tag_table (db w);
                 comment_table := comment_table (db w) ++ [c] |};
        send_mail_calls := send_mail_calls w |}).

(** [post.comments.filter(active=True)]. *)
Definition active_comments (s : Store) (p : Post) : list Comment :=
  List.filter
    (fun c => bool_decide (comment_post c = Some (id p)) && active c)
    (comment_table s).

(** The number of comments of a post. *)
Definition comment_count (s : Store) (p : Post) : nat :=
  length (List.filter (fun c => bool_decide (comment_post c = Some (id p)))
            (comment_table s)).

(** ** The views *)

Section Views.
Context `{External}.
Context {rt : PyRuntime}.

(** [send_mail(subject, message, from_email, recipient_list)]: the call is
    logged, then the transport accepts the message or raises. *)
Definition send_mail (e : Email) : M Z :=
  fun w =>
    let w' := {| db := db w; send_mail_calls := send_mail_calls w ++ [e] |} in
    match smtp e with
    | None => (inr 1, w')
    | Some exc => (inl exc, w')
    end.

(** The lookup of [post_detail], lines 35-37: [slug=post,
    status='PUBLISHED', publish__year=year, publish__month=month,
    publish__day=day]. *)
Definition detail_cond (year_ month_ day_ : Z) (post_slug : string) (p : Post)
  : bool :=
  bool_decide (slug p = post_slug)
  && is_published p
  && (year (publish p) =? year_)
  && (month (publish p) =? month_)
  && (day (publish p) =? day_).

Definition detail_lookup (s : Store) (year_ month_ day_ : Z) (post_slug : string)
  : Res Post :=
  get_object_or_404 (post_table s) (detail_cond year_ month_ day_ post_slug).

(** The similar posts of [post_detail], lines 55-61.
    [filter(tags__in=post_tags_ids)] joins every published post with those of
    its tags that are among [post_tags_ids], and a post with no such tag
    drops out; [exclude(id=post.id)] removes [post] itself;
    [annotate(same_tags=Count('tags'))] counts the joined tags of each post;
    then the rows are ordered and cut. *)
Definition similar_posts (s : Store) (post : Post) (similar_posts_number : Z)
  : Res (list (Post * nat)) :=
  let post_tags_ids := tags post in
  let joined :=
    List.filter (fun p => negb (bool_decide (tags p ∩ post_tags_ids = ∅)))
      (Post_published s) in
  let excluded :=
    List.filter (fun p => negb (bool_decide (id p = id post))) joined in
  let annotated :=
    List.map (fun p => (p, size (tags p ∩ post_tags_ids))) excluded in
  slice_to similar_posts_number (merge_sort by_same_tags_publish annotated).

(** [post_detail].  The querysets [comments] and [similar_posts] are lazy:
    they are read when the template is rendered, after the new comment is
    saved; the slice bound of [similar_posts] is checked where the slice is
    written. *)
Definition post_detail (request : HttpRequest) (year_ month_ day_ : Z)
  (post_slug : string) (similar_posts_number : Z)
  : M (HttpResponse DetailContext) :=
  s <- get_db ;;
  post <- lift (detail_lookup s year_ month_ day_ post_slug) ;;
  forms <-
    (if String.eqb (method request) "POST" then
       match CommentForm_clean (POST request) with
       | inr instance =>
         let new_comment := set_post instance post in
         _ <- Comment_save new_comment ;;
         ret (Some new_comment, Some (Bound (POST request) []))
       | inl _ => ret (None, Some Unbound)
       end
     else ret (None, None)) ;;
  similar <- lift (similar_posts s post similar_posts_number) ;;
  s' <- get_db ;;
  render "blog/post/detail.html"
    {| detail_post := post;
       detail_comments := active_comments s' post;
       detail_new_comment := forms.1;
       detail_comment_form := forms.2;
       detail_similar_posts := similar |}.

(** [similar_posts_number=4]. *)
Definition similar_posts_number_default : Z := 4.

(** [try: paginator.page(page) except PageNotAnInteger: ... except
    EmptyPage: ...]: a handler's own exception is not handled again. *)
Definition page_or_fallback (paginator : Paginator) (v : PyVal) : Res Page :=
  match page paginator v with
  | inl PageNotAnInteger => page paginator (PyInt 1)
  | inl EmptyPage =>
    match num_pages paginator with
    | inl e => inl e
    | inr np => page paginator (PyInt np)
    end
  | r => r
  end.

(** The posts to list, lines 85-89: the published posts, narrowed to a tag
    when [tag_slug] is given and not empty. *)
Definition list_queryset (s : Store) (tag_slug_ : option string)
  : Res (option Tag * list Post) :=
  let published_posts := Post_published s in
  match tag_slug_ with
  | Some (String _ _ as ts) =>
    match get_object_or_404 (tag_table s)
            (fun t => bool_decide (tag_slug t = ts)) with
    | inl e => inl e
    | inr tag =>
      inr (Some tag,
           List.filter (fun p => bool_decide (tag_id tag ∈ tags p))
             published_posts)
    end
  | _ => inr (None, published_posts)
  end.

Definition post_list (request : HttpRequest) (tag_slug_ : option string)
  (posts_on_page : Z) : M (HttpResponse ListContext) :=
  s <- get_db ;;
  filtered <- lift (list_queryset s tag_slug_) ;;
  let paginator := {| object_list := filtered.2; per_page := posts_on_page |} in
  let page_param := GET request !! "page" in
  posts <- lift (page_or_fallback paginator
                   (from_option PyStr PyNone page_param)) ;;
  render "blog/post/list.html"
    {| list_page := page_param; list_posts := posts; list_tag := filtered.1 |}.

(** [posts_on_page=3]. *)
Definition posts_on_page_default : Z := 3.

Definition post_search (request : HttpRequest)
  : M (HttpResponse SearchContext) :=
  s <- get_db ;;
  let bound_data :=
    if bool_decide (is_Some (GET request !! "query"))
    then Some (GET request) else None in
  match bound_data with
  | None =>
    render "blog/post/search_results.html"
      {| search_form := Unbound; search_query := None; search_results := [] |}
  | Some data =>
    match SearchForm_clean data with
    | inl errors =>
      render "blog/post/search_results.html"
        {| search_form := Bound data errors;
           search_query := None;
           search_results := [] |}
    | inr query =>
      let annotated :=
        List.map
          (fun p => (p, Greatest (TrigramSimilarity (title p) query)
                          (TrigramSimilarity (body p) query)))
          (Post_objects s) in
      let results :=
        merge_sort by_similarity
          (List.filter (fun r => Qle_bool threshold r.2) annotated) in
      render "blog/post/search_results.html"
        {| search_form := Bound data [];
           search_query := Some query;
           search_results := results |}
    end
  end.

Definition quote : string := String (ascii_of_nat 34) EmptyString.
Definition newline : string := String (ascii_of_nat 10) EmptyString.

(** The message of [post_share_by_email], lines 164-172. *)
Definition share_email (request : HttpRequest) (post : Post) (cd : ShareData)
  : Email :=
  let post_url := build_absolute_uri request post in
  {| subject :=
       (cd_name cd ++ " (" ++ cd_email cd ++ ") recommends you reading "
        ++ title post)%string;
     message :=
       ("Read " ++ quote ++ title post ++ quote ++ " at " ++ post_url
        ++ newline ++ newline
        ++ cd_name cd ++ "'s comments:" ++ cd_comments cd)%string;
     from_email := "django.framework.email.test@gmail.com";
     recipient_list := [cd_destination cd] |}.

(** The lookup of [post_share_by_email], line 151: [id=post_id,
    status='PUBLISHED']. *)
Definition share_cond (post_id : Z) (p : Post) : bool :=
  (id p =? post_id) && is_published p.

Definition share_lookup (s : Store) (post_id : Z) : Res Post :=
  get_object_or_404 (post_table s) (share_cond post_id).

Definition post_share_by_email (request : HttpRequest) (post_id : Z)
  : M (HttpResponse ShareContext) :=
  s <- get_db ;;
  post <- lift (share_lookup s post_id) ;;
  if String.eqb (method request) "POST" then
    match EmailPostForm_clean (POST request) with
    | inr cd =>
      flags <-
        try_except
          (_ <- send_mail (share_email request post cd) ;; ret (true, false))
          isinstance_Exception
          (ret (false, true)) ;;
      render "blog/post/share.html"
        {| share_post := post;
           share_form := Bound (POST request) [];
           share_sent := flags.1;
           share_sent_failed := flags.2 |}
    | inl errors =>
      render "blog/post/share.html"
        {| share_post := post;
           share_form := Bound (POST request) errors;
           share_sent := false;
           share_sent_failed := false |}
    end
  else
    render "blog/post/share.html"
      {| share_post := post;
         share_form := Unbound;
         share_sent := false;
         share_sent_failed := false |}.

End Views.

(** ** A concrete environment *)

(** White space of the Unicode database ([str.isspace]). *)
Definition unicode_spaces : list N :=
  [9; 10; 11; 12; 13; 28; 29; 30; 31; 32; 133; 160; 5760; 8192; 8193; 8194;
   8195; 8196; 8197; 8198; 8199; 8200; 8201; 8202; 8232; 8233; 8239; 8287;
   12288]%N.

(** The decimal digits of Unicode 14.0 come in runs of ten, zero to nine:
    the code point of each zero. *)
Definition decimal_zeros : list N :=
  [48; 1632; 1776; 1984; 2406; 2534; 2662; 2790; 2918; 3046; 3174; 3302;
   3430; 3558; 3664; 3792; 3872; 4160; 4240; 6112; 6160; 6470; 6608; 6784;
   6800; 6992; 7088; 7232; 7248; 42528; 43216; 43264; 43472; 43504; 43600;
   44016; 65296; 66720; 68912; 69734; 69872; 69942; 70096; 70384; 70736;
   70864; 71248; 71360; 71472; 71904; 72016; 72784; 73040; 73120; 92768;
   92864; 93008; 120782; 120792; 120802; 120812; 120822; 123200; 123632;
   125264; 130032]%N.

(** CPython with the Unicode 14.0 database and the default limit of 4300
    digits. *)
Definition cpython : PyRuntime :=
  {| Py_UNICODE_ISSPACE := fun ch => existsb (N.eqb ch) unicode_spaces;
     Py_UNICODE_TODECIMAL := fun ch =>
       match List.find (fun z => ((z <=? ch) && (ch <? z + 10))%N)
               decimal_zeros with
       | Some z => Some (ch - z)%N
       | None => None
       end;
     int_max_str_digits := 4300 |}.

(** Modelled from the spec: the database's trigram function is missing; the
    glossary describes the score as based on the shared 3-character
    substrings of the two strings, normalised to [0,1].  Here: the distinct
    3-character substrings of each padded string, shared over all. *)
Fixpoint trigrams (s : string) : list string :=
  match s with
  | String a (String b (String c _) as rest) =>
    String a (String b (String c EmptyString)) :: trigrams rest
  | _ => []
  end.

(** The distinct trigrams of a string padded with two blanks in front and
    one behind. *)
Definition trigram_set (s : string) : list string :=
  remove_dups (trigrams ("  " ++ s ++ " ")%string).

(** The number of shared trigrams over the number of all trigrams. *)
Definition trigram_similarity (a b : string) : Q :=
  let ta := trigram_set a in
  let tb := trigram_set b in
  let shared := length (list_intersection ta tb) in
  let all := length (list_union ta tb) in
  match all with
  | O => 0
  | S _ => Z.of_nat shared # Pos.of_nat all
  end.

(** A required form field: present and not blank. *)
Definition required_field (data : gmap string string) (field : string)
  : ErrorDict + string :=
  match data !! field with
  | Some (String _ _ as v) => inr v
  | _ => inl [(field, "This field is required.")]
  end.

(** The errors of a field's validation. *)
Definition errors_of {A} (r : ErrorDict + A) : ErrorDict :=
  match r with
  | inl errors => errors
  | inr _ => []
  end.

(** Modelled from the spec: [forms.py] is missing; the comment form takes the
    author fields and the body, all required; the new comment is active and
    has no post yet. *)
Definition demo_CommentForm_clean (data : gmap string string)
  : ErrorDict + Comment :=
  match required_field data "name", required_field data "email",
        required_field data "body" with
  | inr n, inr e, inr b =>
    inr {| comment_post := None; comment_name := n; comment_email := e;
           comment_body := b; active := true |}
  | r1, r2, r3 => inl (errors_of r1 ++ errors_of r2 ++ errors_of r3)
  end.

(** Modelled from the spec: [forms.py] is missing; the share form has the
    fields name, email, destination address and comments. *)
Definition demo_EmailPostForm_clean (data : gmap string string)
  : ErrorDict + ShareData :=
  match required_field data "name", required_field data "email",
        required_field data "destination" with
  | inr n, inr e, inr d =>
    inr {| cd_name := n; cd_email := e; cd_destination := d;
           cd_comments := default EmptyString (data !! "comments") |}
  | r1, r2, r3 => inl (errors_of r1 ++ errors_of r2 ++ errors_of r3)
  end.

(** Modelled from the spec: [forms.py] is missing; the search form has the
    one field [query], a string that must not be empty. *)
Definition demo_SearchForm_clean (data : gmap string string)
  : ErrorDict + string :=
  required_field data "query".

(** Modelled from the spec: [models.py] and the URL configuration are
    missing; the detail view is reached by the path parameters year, month,
    day and slug. *)
Definition demo_build_absolute_uri (request : HttpRequest) (p : Post)
  : string :=
  ("http://testserver/blog/" ++ slug p ++ "/")%string.

(** An environment whose mail transport answers every message with
    [outcome]. *)
Definition demo_external (outcome : option PyExc) : External :=
  {| CommentForm_clean := demo_CommentForm_clean;
     EmailPostForm_clean := demo_EmailPostForm_clean;
     SearchForm_clean := demo_SearchForm_clean;
     TrigramSimilarity := trigram_similarity;
     build_absolute_uri := demo_build_absolute_uri;
     smtp := fun _ => outcome |}.

(** A small store: two published posts, a draft and an older post. *)
Definition jan5 : DateTime :=
  {| year := 2024; month := 1; day := 5; second_of_day := 36000 |}.

Definition jan9 : DateTime :=
  {| year := 2024; month := 1; day := 9; second_of_day := 100 |}.

Definition post1 : Post :=
  {| id := 1; slug := "django-tips"; title := "django tips";
     body := "forms and views"; status := PUBLISHED; publish := jan5;
     tags := {[ 10; 11 ]} |}.

Definition post2 : Post :=
  {| id := 2; slug := "more-django"; title := "more django";
     body := "querysets"; status := PUBLISHED; publish := jan9;
     tags := {[ 10; 11; 12 ]} |}.

Definition draft3 : Post :=
  {| id := 3; slug := "secret-plans"; title := "secret plans";
     body := "not ready yet"; status := DRAFT; publish := jan9;
     tags := {[ 10 ]} |}.

Definition post4 : Post :=
  {| id := 4; slug := "untagged"; title := "misc";
     body := "nothing to see"; status := PUBLISHED; publish := jan5;
     tags := ∅ |}.

Definition post5 : Post :=
  {| id := 5; slug := "old-django"; title := "old django";
     body := "history"; status := PUBLISHED; publish := jan5;
     tags := {[ 11 ]} |}.

Definition demo_store : Store :=
  {| post_table := [post1; post2; draft3; post4; post5];
     tag_table := [ {| tag_id := 10; tag_slug := "django"; tag_name := "Django" |};
                    {| tag_id := 11; tag_slug := "python"; tag_name := "Python" |};
                    {| tag_id := 12; tag_slug := "orm"; tag_name := "ORM" |} ];
     comment_table := [] |}.

Definition demo_world : World :=
  {| db := demo_store; send_mail_calls := [] |}.



(** An environment whose comment form hands over an instance that already
    points to the post with id 2, as a form exposing the post field would on
    a client's request. *)
Definition forged_external : External :=
  {| CommentForm_clean := fun data =>
       match demo_CommentForm_clean data with
       | inr c =>
         inr {| comment_post := Some 2; comment_name := comment_name c;
                comment_email := comment_email c;
                comment_body := comment_body c; active := active c |}
       | inl errors => inl errors
       end;
     EmailPostForm_clean := demo_EmailPostForm_clean;
     SearchForm_clean := demo_SearchForm_clean;
     TrigramSimilarity := trigram_similarity;
     build_absolute_uri := demo_build_absolute_uri;
     smtp := fun _ => None |}.

Definition get_request : HttpRequest :=
  {| method := "GET"; GET := ∅; POST := ∅ |}.

Definition search_request (q : string) : HttpRequest :=
  {| method := "GET"; GET := {[ "query" := q ]}; POST := ∅ |}.

Definition page_request (n : string) : HttpRequest :=
  {| method := "GET"; GET := {[ "page" := n ]}; POST := ∅ |}.

(** A comment POST without email and body. *)
Definition invalid_comment_request : HttpRequest :=
  {| method := "POST"; GET := ∅; POST := {[ "name" := "Ann" ]} |}.

Definition valid_comment_request : HttpRequest :=
  {| method := "POST"; GET := ∅;
     POST := {[ "name" := "Ann"; "email" := "ann@example.org";
                "body" := "Thanks" ]} |}.

Definition share_request : HttpRequest :=
  {| method := "POST"; GET := ∅;
     POST := {[ "name" := "Ann"; "email" := "ann@example.org";
                "destination" := "bob@example.org";
                "comments" := "read this" ]} |}.

Definition share_data : ShareData :=
  {| cd_name := "Ann"; cd_email := "ann@example.org";
     cd_destination := "bob@example.org"; cd_comments := "read this" |}.

(** The concrete store with three comments: an active and an inactive one on
    post 1, an active one on post 2. *)
Definition commented_world : World :=
  {| db :=
       {| post_table := post_table demo_store;
          tag_table := tag_table demo_store;
          comment_table :=
            [ {| comment_post := Some 1; comment_name := "Bob";
                 comment_email := "bob@example.org"; comment_body := "First";
                 active := true |};
              {| comment_post := Some 1; comment_name := "Eve";
                 comment_email := "eve@example.org"; comment_body := "Spam";
                 active := false |};
              {| comment_post := Some 2; comment_name := "Bob";
                 comment_email := "bob@example.org"; comment_body := "Second";
                 active := true |} ] |};
     send_mail_calls := [] |}.

(** The request for page 1 or page 2 of the list. *)
Definition numbered_page_request (k : Z) : HttpRequest :=
  page_request (if k =? 1 then "1" else "2").

(** A share POST without a destination address. *)
Definition invalid_share_request : HttpRequest :=
  {| method := "POST"; GET := ∅;
     POST := {[ "name" := "Ann"; "email" := "ann@example.org" ]} |}.

(** ** Vocabulary of the properties *)

(** [a] is not later than [b]: the lexicographic order on year, month, day
    and second of the day. *)
Definition dt_le (a b : DateTime) : Prop :=
  year a < year b \/
  (year a = year b /\
   (month a < month b \/
    (month a = month b /\
     (day a < day b \/
      (day a = day b /\ second_of_day a <= second_of_day b))))).

(** [p] is the published post of the URL [year/month/day/slug]. *)
Definition detail_match (year_ month_ day_ : Z) (post_slug : string) (p : Post)
  : Prop :=
  slug p = post_slug /\ status p = PUBLISHED /\
  year (publish p) = year_ /\ month (publish p) = month_ /\
  day (publish p) = day_.

(** [c] and [p] have a tag in common. *)
Definition shares_a_tag (c p : Post) : Prop :=
  exists t, t ∈ tags c /\ t ∈ tags p.

(** The number of the last page of [n] posts, [per] on a page: there is
    always a first page. *)
Definition last_page (n per : Z) : Z := Z.max 1 ((n + per - 1) / per).

(** The page number served for a requested number [requested] ([None] when
    the parameter is missing or is not an integer) when the last page is
    [np]: the first page without a number, the last page for a number out of
    range. *)
Definition clamped_page (requested : option Z) (np : Z) : Z :=
  match requested with
  | None => 1
  | Some k => if (k <? 1) || (np <? k) then np else k
  end.

(** The posts on page [k]. *)
Definition posts_of_page (posts : list Post) (per k : Z) : list Post :=
  firstn (Z.to_nat per) (skipn (Z.to_nat ((k - 1) * per)) posts).

(** A byte that no integer literal contains: an ASCII character that is no
    digit, no white space of [int], no sign and no underscore. *)
Definition never_in_int (c : N) : Prop :=
  (c < 127)%N /\ ~ (48 <= c <= 57)%N /\ ~ (9 <= c <= 13)%N /\
  c <> 32%N /\ c <> 43%N /\ c <> 45%N /\ c <> 95%N.

(** A byte of white space around a literal: tab, line feed, vertical tab,
    form feed, carriage return or blank. *)
Definition blank (c : N) : Prop := (9 <= c <= 13)%N \/ c = 32%N.

Inductive Sign : Type := NoSign | PlusSign | MinusSign.

Definition sign_bytes (sg : Sign) : list N :=
  match sg with
  | NoSign => []
  | PlusSign => [43%N]
  | MinusSign => [45%N]
  end.

Definition signed (sg : Sign) (v : Z) : Z :=
  match sg with
  | MinusSign => - v
  | _ => v
  end.

(** The number a sequence of decimal digits denotes. *)
Definition digits_value (ds : list N) : Z :=
  fold_left (fun a d => 10 * a + Z.of_N d) ds 0.

(** The bytes of a plain literal: white space, a sign, the ASCII digits of
    [ds], white space. *)
Definition literal_bytes (pre : list N) (sg : Sign) (ds post : list N)
  : list N :=
  pre ++ sign_bytes sg ++ List.map (fun d => (48 + d)%N) ds ++ post.

(** A state of the decoder that its own steps reach: inside a character
    the next byte is no ASCII byte. *)
Definition utf8_state_ok (st : Utf8State) : Prop :=
  match st with
  | Utf8Start => True
  | Utf8Need _ _ lo _ => (128 <= lo)%N
  end.

(** The characters of a literal, as [PyLong_FromString] reads them. *)
Definition int_char (c : N) : bool :=
  match digit_of c with
  | Some _ => true
  | None => Py_ISSPACE c || (c =? 43)%N || (c =? 45)%N || (c =? 95)%N
  end.

(** * Properties *)

(** ** The lookup behind [get_object_or_404] *)

Lemma get_object_or_404_not_found {A} (rows : list A) (cond : A -> bool) :
  get_object_or_404 rows cond = inl Http404 <->
  (forall x, In x rows -> cond x = false).
Proof.
  unfold get_object_or_404.
  destruct (List.filter cond rows) as [|x0 [|x1 rest]] eqn:E.
  - split; [intros _ x Hx | reflexivity].
    destruct (cond x) eqn:Hc; [|reflexivity].
    assert (Hin : In x (List.filter cond rows)) by (apply filter_In; auto).
    rewrite E in Hin. destruct Hin.
  - split; [discriminate | intros Hall].
    assert (Hin : In x0 (List.filter cond rows)) by (rewrite E; left; reflexivity).
    apply filter_In in Hin as [Hin Hc]. rewrite (Hall _ Hin) in Hc. discriminate.
  - split; [discriminate | intros Hall].
    assert (Hin : In x0 (List.filter cond rows)) by (rewrite E; left; reflexivity).
    apply filter_In in Hin as [Hin Hc]. rewrite (Hall _ Hin) in Hc. discriminate.
Qed.

Lemma get_object_or_404_found {A} (rows : list A) (cond : A -> bool) (x : A) :
  get_object_or_404 rows cond = inr x <-> List.filter cond rows = [x].
Proof.
  unfold get_object_or_404.
  destruct (List.filter cond rows) as [|x0 [|x1 rest]]; split; intros E;
    try discriminate; congruence.
Qed.

Lemma get_object_or_404_sound {A} (rows : list A) (cond : A -> bool) (x : A) :
  get_object_or_404 rows cond = inr x -> In x rows /\ cond x = true.
Proof.
  intros E. apply get_object_or_404_found in E.
  apply filter_In. rewrite E. left. reflexivity.
Qed.


(** ** The two orderings *)

Lemma dt_leb_spec a b : dt_leb a b = true <-> dt_le a b.
Proof.
  unfold dt_leb, dt_compare, dt_le.
  destruct (Z.compare_spec (year a) (year b));
    [ destruct (Z.compare_spec (month a) (month b));
      [ destruct (Z.compare_spec (day a) (day b));
        [ destruct (Z.compare_spec (second_of_day a) (second_of_day b)) | | ]
      | | ]
    | | ];
    split; intros Hle; try reflexivity; try discriminate; lia.
Qed.

Lemma dt_le_total a b : dt_le a b \/ dt_le b a.
Proof. unfold dt_le. lia. Qed.

Lemma dt_le_trans a b c : dt_le a b -> dt_le b c -> dt_le a c.
Proof. unfold dt_le. lia. Qed.

(** Descending shared-tag count, then descending publish timestamp. *)
Lemma by_same_tags_publish_spec (a b : Post * nat) :
  by_same_tags_publish a b <->
  (b.2 < a.2)%nat \/ (a.2 = b.2 /\ dt_le (publish b.1) (publish a.1)).
Proof.
  unfold by_same_tags_publish, same_tags_publish_leb.
  rewrite orb_true_iff, andb_true_iff, Nat.ltb_lt, Nat.eqb_eq, dt_leb_spec.
  reflexivity.
Qed.

#[global] Instance by_same_tags_publish_total : Total by_same_tags_publish.
Proof.
  intros a b. rewrite !by_same_tags_publish_spec.
  destruct (dt_le_total (publish a.1) (publish b.1));
    destruct (lt_eq_lt_dec a.2 b.2) as [[Hlt|Heq]|Hgt]; auto.
Qed.

#[global] Instance by_same_tags_publish_trans : Transitive by_same_tags_publish.
Proof.
  intros a b c. rewrite !by_same_tags_publish_spec.
  intros [Hab|[Hab Hd1]] [Hbc|[Hbc Hd2]]; try (left; lia).
  right. split; [lia|]. eapply dt_le_trans; eassumption.
Qed.

Lemma by_similarity_spec (a b : Post * Q) : by_similarity a b <-> (b.2 <= a.2)%Q.
Proof. unfold by_similarity. apply Qle_bool_iff. Qed.

#[global] Instance by_similarity_total : Total by_similarity.
Proof.
  intros a b. rewrite !by_similarity_spec.
  destruct (Qlt_le_dec a.2 b.2) as [Hlt|Hle]; [right|left]; auto.
  apply Qlt_le_weak. exact Hlt.
Qed.

#[global] Instance by_similarity_trans : Transitive by_similarity.
Proof.
  intros a b c. rewrite !by_similarity_spec. intros Hab Hbc.
  eapply Qle_trans; eassumption.
Qed.

(** [Greatest] is the maximum of its two arguments. *)
Lemma Greatest_max (a b : Q) :
  (a <= Greatest a b)%Q /\ (b <= Greatest a b)%Q /\
  (Greatest a b = a \/ Greatest a b = b).
Proof.
  unfold Greatest. destruct (Qle_bool a b) eqn:E.
  - apply Qle_bool_iff in E. repeat split; auto. apply Qle_refl.
  - repeat split; auto; [apply Qle_refl|].
    destruct (Qlt_le_dec b a) as [Hlt|Hle].
    + apply Qlt_le_weak. exact Hlt.
    + apply Qle_bool_iff in Hle. congruence.
Qed.

(** ** Rows selected by a condition *)

Lemma filter_none {A} (cond : A -> bool) (l : list A) :
  List.filter cond l = [] <-> (forall x, In x l -> cond x = false).
Proof.
  induction l as [|a l IH]; simpl.
  - split; [intros _ x [] | reflexivity].
  - destruct (cond a) eqn:Ha; split.
    + discriminate.
    + intros Hall. rewrite (Hall a (or_introl eq_refl)) in Ha. discriminate.
    + intros E x [<-|Hx]; [exact Ha | apply IH; assumption].
    + intros Hall. apply IH. intros x Hx. apply Hall. right. exact Hx.
Qed.


Section Properties.
Context `{External}.
Context {rt : PyRuntime}.

(** ** Post lookup *)

Lemma detail_cond_spec y m d sl p :
  detail_cond y m d sl p = true <-> detail_match y m d sl p.
Proof.
  unfold detail_cond, detail_match, is_published.
  rewrite !andb_true_iff, !bool_decide_eq_true, !Z.eqb_eq. tauto.
Qed.


Lemma share_cond_spec post_id p :
  share_cond post_id p = true <-> id p = post_id /\ status p = PUBLISHED.
Proof.
  unfold share_cond, is_published.
  rewrite andb_true_iff, bool_decide_eq_true, Z.eqb_eq. tauto.
Qed.

(** A failed lookup ends [post_detail] at once, with the world untouched. *)
Lemma post_detail_lookup_error request y m d sl n w e :
  detail_lookup (db w) y m d sl = inl e ->
  post_detail request y m d sl n w = (inl e, w).
Proof.
  intros E. unfold post_detail, bind, get_db, lift. simpl. rewrite E.
  reflexivity.
Qed.


(** ** Sharing by email *)

Lemma post_share_lookup_error request post_id w e :
  share_lookup (db w) post_id = inl e ->
  post_share_by_email request post_id w = (inl e, w).
Proof.
  intros E. unfold post_share_by_email, bind, get_db, lift. simpl.
  rewrite E. reflexivity.
Qed.

(** The post a share request works on has the requested id and is
    published. *)
Lemma share_lookup_sound s post_id p :
  share_lookup s post_id = inr p ->
  In p (post_table s) /\ id p = post_id /\ status p = PUBLISHED.
Proof.
  intros E. apply get_object_or_404_sound in E as [Hin Hc].
  apply share_cond_spec in Hc. tauto.
Qed.

(** C10: a share request, GET or POST, for an id that no published post has
    (a draft's id, or an id that does not exist) raises [Http404]; the world
    is left as it was, so [send_mail] is not called. *)
Theorem share_unpublished_not_found request post_id w :
  (forall p, In p (post_table (db w)) -> id p = post_id ->
             status p <> PUBLISHED) ->
  share_lookup (db w) post_id = inl Http404 /\
  post_share_by_email request post_id w = (inl Http404, w) /\
  send_mail_calls (post_share_by_email request post_id w).2
  = send_mail_calls w.
Proof.
  intros Hnone.
  assert (E : share_lookup (db w) post_id = inl Http404).
  { apply get_object_or_404_not_found. intros p Hp.
    destruct (share_cond post_id p) eqn:Hc; [|reflexivity].
    apply share_cond_spec in Hc as [Hid Hst].
    destruct (Hnone p Hp Hid Hst). }
  split; [exact E|].
  rewrite (post_share_lookup_error request post_id w Http404 E).
  split; reflexivity.
Qed.

(** An exception of the dispatch that is not an instance of [Exception]
    leaves the view. *)
Lemma share_dispatch_propagates request post_id w p cd e :
  method request = "POST" ->
  share_lookup (db w) post_id = inr p ->
  EmailPostForm_clean (POST request) = inr cd ->
  smtp (share_email request p cd) = Some e ->
  isinstance_Exception e = false ->
  post_share_by_email request post_id w =
  (inl e, {| db := db w;
             send_mail_calls :=
               send_mail_calls w ++ [share_email request p cd] |}).
Proof.
  intros Hm Hl Hf He Hexc.
  unfold post_share_by_email, bind, get_db, lift, try_except, send_mail,
    render, ret.
  simpl. rewrite Hl, Hm, Hf. simpl. rewrite He, Hexc. reflexivity.
Qed.

(** C9, as amended: on a share POST with a valid form, an exception raised by
    the mail dispatch that is an instance of [Exception] is caught: the
    response is rendered with sent = False and sent_failed = True; a
    dispatch that succeeds gives sent = True and sent_failed = False; an
    exception that is not an instance of [Exception] is not caught.  In
    every case [send_mail] was called once, with the message composed from
    the form and the post. *)
Theorem share_dispatch_flags request post_id w p cd :
  method request = "POST" ->
  share_lookup (db w) post_id = inr p ->
  EmailPostForm_clean (POST request) = inr cd ->
  let email := share_email request p cd in
  let w' := {| db := db w; send_mail_calls := send_mail_calls w ++ [email] |} in
  (forall e, smtp email = Some e -> isinstance_Exception e = true ->
     exists resp,
       post_share_by_email request post_id w = (inr resp, w') /\
       share_post (context resp) = p /\
       share_sent (context resp) = false /\
       share_sent_failed (context resp) = true) /\
  (smtp email = None ->
     exists resp,
       post_share_by_email request post_id w = (inr resp, w') /\
       share_post (context resp) = p /\
       share_sent (context resp) = true /\
       share_sent_failed (context resp) = false) /\
  (forall e, smtp email = Some e -> isinstance_Exception e = false ->
     post_share_by_email request post_id w = (inl e, w')).
Proof.
  intros Hm Hl Hf email w'.
  split; [|split].
  - intros e He Hexc.
    unfold post_share_by_email, bind, get_db, lift, try_except, send_mail,
      render, ret.
    simpl. rewrite Hl, Hm, Hf. simpl. fold email. fold w'.
    rewrite He, Hexc. eexists. repeat split.
  - intros Hnone.
    unfold post_share_by_email, bind, get_db, lift, try_except, send_mail,
      render, ret.
    simpl. rewrite Hl, Hm, Hf. simpl. fold email. fold w'.
    rewrite Hnone. eexists. repeat split.
  - intros e He Hexc.
    apply (share_dispatch_propagates request post_id w p cd e Hm Hl Hf He Hexc).
Qed.

(** On an invalid share POST the form given to the template is the bound one,
    with the submitted data and its errors. *)
Lemma share_invalid_form_bound request post_id w p errors :
  method request = "POST" ->
  share_lookup (db w) post_id = inr p ->
  EmailPostForm_clean (POST request) = inl errors ->
  exists resp,
    post_share_by_email request post_id w = (inr resp, w) /\
    share_form (context resp) = Bound (POST request) errors.
Proof.
  intros Hm Hl Hf.
  unfold post_share_by_email, bind, get_db, lift, render, ret.
  simpl. rewrite Hl, Hm, Hf. simpl. eexists. split; reflexivity.
Qed.

(** ** Comment intake *)

(** The world after the comment part of [post_detail]. *)
Lemma post_detail_world request y m d sl n w p :
  detail_lookup (db w) y m d sl = inr p ->
  (post_detail request y m d sl n w).2 =
  if String.eqb (method request) "POST" then
    match CommentForm_clean (POST request) with
    | inr instance => (Comment_save (set_post instance p) w).2
    | inl _ => w
    end
  else w.
Proof.
  intros Hl. unfold post_detail, bind, get_db, lift, render, ret.
  simpl. rewrite Hl.
  destruct (String.eqb (method request) "POST");
    [destruct (CommentForm_clean (POST request))|]; simpl;
    destruct (similar_posts (db w) p n); reflexivity.
Qed.

(** C5: a comment POST whose form data fails validation changes nothing: the
    world after the request is the world before it, so the comment table and
    every post's comment count are the same. *)
Theorem post_detail_invalid_no_write request y m d sl n w errors :
  method request = "POST" ->
  CommentForm_clean (POST request) = inl errors ->
  (post_detail request y m d sl n w).2 = w /\
  comment_table (db (post_detail request y m d sl n w).2)
  = comment_table (db w) /\
  forall p, comment_count (db (post_detail request y m d sl n w).2) p
            = comment_count (db w) p.
Proof.
  intros Hm Hf.
  assert (E : (post_detail request y m d sl n w).2 = w).
  { destruct (detail_lookup (db w) y m d sl) as [e|p] eqn:Hl.
    - rewrite (post_detail_lookup_error request y m d sl n w e Hl).
      reflexivity.
    - rewrite (post_detail_world request y m d sl n w p Hl), Hm, Hf.
      reflexivity. }
  rewrite E. repeat split.
Qed.

(** C6: on a comment POST whose form data validates, the row added to the
    comment table is the form's instance with its post set to the post
    resolved from year, month, day and slug: the stored post reference is
    that post's id whatever reference the instance built from the client's
    data carried. *)
Theorem post_detail_comment_bound request y m d sl n w instance p :
  method request = "POST" ->
  CommentForm_clean (POST request) = inr instance ->
  detail_lookup (db w) y m d sl = inr p ->
  let w' := (post_detail request y m d sl n w).2 in
  exists c,
    comment_table (db w') = comment_table (db w) ++ [c] /\
    comment_post c = Some (id p) /\
    detail_match y m d sl p /\
    comment_name c = comment_name instance /\
    comment_email c = comment_email instance /\
    comment_body c = comment_body instance /\
    comment_count (db w') p = S (comment_count (db w) p).
Proof.
  intros Hm Hf Hl w'. subst w'.
  rewrite (post_detail_world request y m d sl n w p Hl), Hm, Hf. simpl.
  assert (Hmatch : detail_match y m d sl p).
  { apply get_object_or_404_sound in Hl as [_ Hc].
    apply detail_cond_spec. exact Hc. }
  exists (set_post instance p).
  split; [reflexivity|]. split; [reflexivity|]. split; [exact Hmatch|].
  split; [reflexivity|]. split; [reflexivity|]. split; [reflexivity|].
  unfold comment_count. simpl. rewrite List.filter_app, length_app. simpl.
  rewrite bool_decide_eq_true_2 by reflexivity. simpl. lia.
Qed.

(** On an invalid comment POST the form given to the template is a blank
    [CommentForm()]: line 52 replaces the bound form. *)
Lemma post_detail_invalid_form_blank request y m d sl n w p errors :
  method request = "POST" ->
  CommentForm_clean (POST request) = inl errors ->
  detail_lookup (db w) y m d sl = inr p ->
  0 <= n ->
  exists resp,
    post_detail request y m d sl n w = (inr resp, w) /\
    detail_comment_form (context resp) = Some Unbound /\
    detail_new_comment (context resp) = None.
Proof.
  intros Hm Hf Hl Hn.
  unfold post_detail, bind, get_db, lift, render, ret. simpl.
  rewrite Hl, Hm, Hf. simpl.
  unfold similar_posts, slice_to.
  destruct (n <? 0) eqn:E; [apply Z.ltb_lt in E; lia|].
  eexists. repeat split.
Qed.

(** ** Similar posts *)

Lemma StronglySorted_firstn {A} (R : relation A) (l : list A) (k : nat) :
  StronglySorted R l -> StronglySorted R (firstn k l).
Proof.
  intros Hs. revert k. induction Hs as [|a l Hs IH Hall]; intros [|k]; simpl;
    try constructor; auto.
  apply Forall_take. exact Hall.
Qed.

(** The rows of the similar-posts query before it is cut: every published
    post other than [post] that has a tag of [post], with the number of tags
    they share; sorted. *)
Lemma similar_posts_full (s : Store) (post : Post) (n : Z) :
  0 <= n ->
  exists full,
    similar_posts s post n = inr (firstn (Z.to_nat n) full) /\
    (forall c k, In (c, k) full <->
       In c (post_table s) /\ status c = PUBLISHED /\ id c <> id post /\
       shares_a_tag c post /\ k = size (tags c ∩ tags post)) /\
    StronglySorted by_same_tags_publish full.
Proof.
  intros Hn. unfold similar_posts, slice_to.
  destruct (n <? 0) eqn:E; [apply Z.ltb_lt in E; lia|].
  eexists. split; [reflexivity|]. split.
  - intros c k.
    rewrite <- !list_elem_of_In, merge_sort_Permutation, !list_elem_of_In.
    rewrite in_map_iff. unfold Post_published, is_published, shares_a_tag.
    split.
    + intros (c' & Hpair & Hin). inversion Hpair; subst c' k.
      apply filter_In in Hin as [Hin Hne].
      apply filter_In in Hin as [Hin Hjoin].
      apply filter_In in Hin as [Hin Hpub].
      apply negb_true_iff, bool_decide_eq_false in Hne, Hjoin.
      apply bool_decide_eq_true in Hpub.
      repeat split; auto.
      apply set_choose_L in Hjoin as [t Ht]. exists t. set_solver.
    + intros (Hin & Hpub & Hne & (t & Ht1 & Ht2) & ->).
      exists c. split; [reflexivity|].
      repeat (apply filter_In; split); auto.
      * apply bool_decide_eq_true. exact Hpub.
      * apply negb_true_iff, bool_decide_eq_false. set_solver.
      * apply negb_true_iff, bool_decide_eq_false. exact Hne.
  - apply StronglySorted_merge_sort; apply _.
Qed.

Lemma StronglySorted_impl {A} (R R' : relation A) (l : list A) :
  (forall a b, R a b -> R' a b) ->
  StronglySorted R l -> StronglySorted R' l.
Proof.
  intros Himp Hs. induction Hs as [|a l Hs IH Hall]; constructor; auto.
  eapply Forall_impl; [exact Hall|]. intros b. apply Himp.
Qed.

(** C3: for the published post [p] resolved by the detail view and a limit
    [n] that is not negative, the similar posts given to the template are
    the first [n] rows of a list [full] that holds exactly the published
    posts other than [p] sharing at least one tag with [p], each with the
    number of tags it shares with [p], ordered by descending shared-tag count
    and then descending publish timestamp; when [p] has no tag the list is
    empty; the default limit is 4. *)
Theorem post_detail_similar_posts request y m d sl n w p :
  detail_lookup (db w) y m d sl = inr p ->
  0 <= n ->
  exists resp w' full,
    post_detail request y m d sl n w = (inr resp, w') /\
    detail_post (context resp) = p /\
    status p = PUBLISHED /\
    detail_similar_posts (context resp) = firstn (Z.to_nat n) full /\
    (forall c k, In (c, k) full <->
       In c (post_table (db w)) /\ status c = PUBLISHED /\ id c <> id p /\
       shares_a_tag c p /\ k = size (tags c ∩ tags p)) /\
    StronglySorted
      (fun a b => (b.2 < a.2)%nat \/
                  (a.2 = b.2 /\ dt_le (publish b.1) (publish a.1))) full /\
    (length (detail_similar_posts (context resp)) <= Z.to_nat n)%nat /\
    (tags p = ∅ -> detail_similar_posts (context resp) = []) /\
    similar_posts_number_default = 4.
Proof.
  intros Hl Hn.
  destruct (similar_posts_full (db w) p n Hn) as (full & Hs & Hchar & Hsorted).
  assert (Hpub : status p = PUBLISHED).
  { apply get_object_or_404_sound in Hl as [_ Hc].
    apply detail_cond_spec in Hc. apply Hc. }
  assert (Hrun : exists resp w',
             post_detail request y m d sl n w = (inr resp, w') /\
             detail_post (context resp) = p /\
             detail_similar_posts (context resp) = firstn (Z.to_nat n) full).
  { unfold post_detail, bind, get_db, lift, render, ret. simpl. rewrite Hl.
    destruct (String.eqb (method request) "POST");
      [destruct (CommentForm_clean (POST request))|]; simpl; rewrite Hs;
      simpl; eexists _, _; repeat split. }
  destruct Hrun as (resp & w' & Hrun & Hpost & Hsim).
  exists resp, w', full. rewrite Hsim.
  split; [exact Hrun|]. split; [exact Hpost|]. split; [exact Hpub|].
  split; [reflexivity|]. split; [exact Hchar|]. split.
  { eapply StronglySorted_impl; [|exact Hsorted].
    intros a b. apply by_same_tags_publish_spec. }
  split; [apply firstn_le_length|]. split; [|reflexivity].
  intros Hempty. destruct full as [|[c k] rest]; [apply firstn_nil|].
  assert (Hin : In (c, k) ((c, k) :: rest)) by (left; reflexivity).
  apply Hchar in Hin as (_ & _ & _ & (t & _ & Ht) & _).
  rewrite Hempty in Ht. set_solver.
Qed.

(** ** Search *)

(** C4: for a search request whose form validates to the query [query], the
    score of a post is the greater of the similarity of its title and of its
    body to [query]; the results are exactly the posts of the table whose
    score is at least 0.003, each with its score, so a post that scores
    below 0.003 is left out and one that scores 0.003 or more is in; they are
    ordered by descending score. *)
Theorem post_search_ranking request w query :
  is_Some (GET request !! "query") ->
  SearchForm_clean (GET request) = inr query ->
  let score p :=
    Greatest (TrigramSimilarity (title p) query)
      (TrigramSimilarity (body p) query) in
  exists resp,
    post_search request w = (inr resp, w) /\
    search_query (context resp) = Some query /\
    (forall p,
       (TrigramSimilarity (title p) query <= score p)%Q /\
       (TrigramSimilarity (body p) query <= score p)%Q /\
       (score p = TrigramSimilarity (title p) query \/
        score p = TrigramSimilarity (body p) query)) /\
    (forall p sc, In (p, sc) (search_results (context resp)) <->
       In p (post_table (db w)) /\ sc = score p /\ (3 # 1000 <= score p)%Q) /\
    (forall p, (score p < 3 # 1000)%Q ->
       ~ In p (map fst (search_results (context resp)))) /\
    StronglySorted (fun a b : Post * Q => (b.2 <= a.2)%Q)
      (search_results (context resp)).
Proof.
  intros Hq Hf score.
  unfold post_search, bind, get_db, render, ret. simpl.
  rewrite bool_decide_eq_true_2 by exact Hq. rewrite Hf. simpl.
  eexists. split; [reflexivity|]. simpl. split; [reflexivity|].
  assert (Hchar : forall p sc,
    In (p, sc)
       (merge_sort by_similarity
          (List.filter (fun r : Post * Q => Qle_bool threshold r.2)
             (List.map (fun p => (p, score p)) (Post_objects (db w))))) <->
    In p (post_table (db w)) /\ sc = score p /\ (3 # 1000 <= score p)%Q).
  { intros p sc.
    rewrite <- list_elem_of_In, merge_sort_Permutation, list_elem_of_In.
    rewrite filter_In, in_map_iff, Qle_bool_iff. unfold Post_objects. simpl.
    split.
    - intros [(p' & Hpair & Hin) Hle]. inversion Hpair; subst p' sc. auto.
    - intros (Hin & -> & Hle). split; [|exact Hle]. exists p. auto. }
  split.
  { intros p. pose proof (Greatest_max (TrigramSimilarity (title p) query)
                            (TrigramSimilarity (body p) query)) as Hg.
    exact Hg. }
  split; [exact Hchar|]. split.
  - intros p Hlt Hin. apply in_map_iff in Hin as ([p' sc] & Hfst & Hin).
    simpl in Hfst. subst p'. apply Hchar in Hin as (_ & _ & Hle).
    apply (Qlt_not_le _ _ Hlt). exact Hle.
  - eapply StronglySorted_impl;
      [|apply (StronglySorted_merge_sort by_similarity)].
    intros a b. apply by_similarity_spec.
Qed.

(** ** [int] on the page parameter *)

Lemma utf8_decode_ascii_mem (bs : list N) :
  forall st cps b,
    utf8_state_ok st ->
    utf8_decode st bs = Some cps ->
    In b bs -> (b < 128)%N -> In b cps.
Proof.
  induction bs as [|b0 rest IH]; intros st cps b Hok Hdec Hin Hb;
    [destruct Hin|].
  assert (Hrest : forall st' cps', utf8_state_ok st' ->
            utf8_decode st' rest = Some cps' -> b <> b0 -> In b cps').
  { intros st' cps' Hok' Hdec' Hne. apply (IH st' cps' b Hok' Hdec'); auto.
    destruct Hin as [Heq|Hin]; [congruence|exact Hin]. }
  destruct st as [|more acc lo hi]; simpl in Hdec, Hok.
  - destruct (b0 <? 128)%N eqn:E0.
    + destruct (utf8_decode Utf8Start rest) as [cps'|] eqn:Hd;
        [|discriminate]. simpl in Hdec. inversion Hdec. subst cps.
      destruct (N.eq_dec b b0) as [->|Hne]; [left; reflexivity|].
      right. apply (Hrest Utf8Start cps' I Hd Hne).
    + apply N.ltb_ge in E0.
      assert (Hne : b <> b0) by lia.
      repeat match type of Hdec with
             | (if ?c then _ else _) = _ => destruct c
             end;
        try discriminate;
        (eapply Hrest; [|exact Hdec|exact Hne]); simpl; lia.
  - destruct ((lo <=? b0) && (b0 <=? hi))%N eqn:E0; [|discriminate].
    apply andb_true_iff in E0 as [E0 _]. apply N.leb_le in E0.
    assert (Hne : b <> b0) by lia.
    destruct more as [|more'].
    + destruct (utf8_decode Utf8Start rest) as [cps'|] eqn:Hd;
        [|discriminate]. simpl in Hdec. inversion Hdec. subst cps.
      right. apply (Hrest Utf8Start cps' I Hd Hne).
    + eapply Hrest; [|exact Hdec|exact Hne]. simpl. lia.
Qed.

Lemma utf8_decode_ascii (bs : list N) :
  Forall (fun b => (b < 128)%N) bs -> utf8_decode Utf8Start bs = Some bs.
Proof.
  induction 1 as [|b rest Hb Hrest IH]; [reflexivity|]. simpl.
  apply N.ltb_lt in Hb. rewrite Hb, IH. reflexivity.
Qed.

Lemma never_in_int_char (c : N) : never_in_int c -> int_char c = false.
Proof.
  intros (_ & Hd & Hs & H32 & H43 & H45 & H95).
  unfold int_char, digit_of, Py_ISSPACE.
  destruct ((48 <=? c) && (c <=? 57))%N eqn:E.
  { apply andb_true_iff in E as [E1 E2].
    apply N.leb_le in E1, E2. lia. }
  destruct ((9 <=? c) && (c <=? 13))%N eqn:E'.
  { apply andb_true_iff in E' as [E1 E2].
    apply N.leb_le in E1, E2. lia. }
  simpl. apply N.eqb_neq in H32, H43, H45, H95.
  rewrite H32, H43, H45, H95. reflexivity.
Qed.

Lemma int_char_false (c : N) :
  int_char c = false ->
  digit_of c = None /\ Py_ISSPACE c = false /\
  (c =? 43)%N = false /\ (c =? 45)%N = false /\ (c =? 95)%N = false.
Proof.
  unfold int_char. destruct (digit_of c); [discriminate|].
  rewrite !orb_false_iff. tauto.
Qed.

Lemma transform_chars_keeps (cps : list N) (c : N) :
  In c cps -> (c < 127)%N -> int_char c = false ->
  exists c', In c' (transform_chars cps) /\ int_char c' = false.
Proof.
  intros Hin Hc Hbad. induction cps as [|ch rest IH]; [destruct Hin|].
  simpl. destruct (ch <? 127)%N eqn:E.
  - destruct Hin as [->|Hin].
    + exists c. split; [left; reflexivity|exact Hbad].
    + destruct (IH Hin) as (c' & Hin' & Hbad').
      exists c'. split; [right; exact Hin'|exact Hbad'].
  - apply N.ltb_ge in E.
    assert (Hrest : In c rest) by (destruct Hin as [->|Hin]; [lia|exact Hin]).
    destruct (IH Hrest) as (c' & Hin' & Hbad').
    destruct (Py_UNICODE_ISSPACE ch).
    + exists c'. split; [right; exact Hin'|exact Hbad'].
    + destruct (Py_UNICODE_TODECIMAL ch) as [d|].
      * exists c'. split; [right; exact Hin'|exact Hbad'].
      * exists 63%N. split; [left; reflexivity|reflexivity].
Qed.

Lemma skip_spaces_keeps (l : list N) (c : N) :
  In c l -> Py_ISSPACE c = false -> In c (skip_spaces l).
Proof.
  intros Hin Hc. induction l as [|c0 rest IH]; [destruct Hin|].
  simpl. destruct (Py_ISSPACE c0) eqn:E; [|exact Hin].
  apply IH. destruct Hin as [->|Hin]; [congruence|exact Hin].
Qed.

Lemma scan_digits_keeps (l : list N) (c : N) :
  forall acc digits after_digit v digits' rest,
    scan_digits l acc digits after_digit = Some (v, digits', rest) ->
    In c l -> digit_of c = None -> (c =? 95)%N = false -> In c rest.
Proof.
  induction l as [|c0 l IH]; intros acc digits after_digit v digits' rest
    Hscan Hin Hd H95; [destruct Hin|].
  simpl in Hscan. destruct (digit_of c0) as [d|] eqn:Hd0.
  - apply (IH _ _ _ _ _ _ Hscan); auto.
    destruct Hin as [->|Hin]; [congruence|exact Hin].
  - destruct (c0 =? 95)%N eqn:E95.
    + destruct after_digit; [|discriminate].
      apply (IH _ _ _ _ _ _ Hscan); auto.
      destruct Hin as [->|Hin]; [congruence|exact Hin].
    + destruct after_digit; [|discriminate]. inversion Hscan. subst.
      exact Hin.
Qed.

(** A text with a character that is not one of a literal is no integer. *)
Lemma PyLong_FromString_bad (l : list N) (c : N) :
  In c l -> int_char c = false -> PyLong_FromString l = None.
Proof.
  intros Hin Hbad.
  apply int_char_false in Hbad as (Hd & Hs & H43 & H45 & H95).
  unfold PyLong_FromString.
  pose proof (skip_spaces_keeps l c Hin Hs) as Hin1.
  set (l1 := skip_spaces l) in *.
  set (signed_ := match l1 with
                  | [] => (false, l1)
                  | c0 :: rest =>
                    if (c0 =? 43)%N then (false, rest)
                    else if (c0 =? 45)%N then (true, rest) else (false, l1)
                  end).
  assert (Hin2 : In c signed_.2).
  { subst signed_. destruct l1 as [|c0 rest]; [exact Hin1|].
    destruct (c0 =? 43)%N eqn:E43.
    - simpl. destruct Hin1 as [->|Hin1]; [congruence|exact Hin1].
    - destruct (c0 =? 45)%N eqn:E45; [|exact Hin1].
      simpl. destruct Hin1 as [->|Hin1]; [congruence|exact Hin1]. }
  destruct (scan_digits signed_.2 0 0 false) as [[[v digits] rest]|] eqn:Hscan;
    [|reflexivity].
  destruct (_ && _ && _)%nat; [reflexivity|].
  pose proof (scan_digits_keeps _ c _ _ _ _ _ _ Hscan Hin2 Hd H95) as Hin3.
  pose proof (skip_spaces_keeps rest c Hin3 Hs) as Hin4.
  destruct (skip_spaces rest); [destruct Hin4|reflexivity].
Qed.

(** A parameter in which a byte occurs that no integer literal contains is
    not an integer, whatever the interpreter's Unicode database. *)
Lemma py_int_never (s : string) (c : N) :
  In c (bytes s) -> never_in_int c -> py_int s = None.
Proof.
  intros Hin Hnever. pose proof (never_in_int_char c Hnever) as Hbad.
  destruct Hnever as (Hc & _).
  unfold py_int.
  destruct (utf8_decode Utf8Start (bytes s)) as [cps|] eqn:Hdec;
    [|reflexivity].
  assert (Hcps : In c cps).
  { apply (utf8_decode_ascii_mem (bytes s) Utf8Start cps c I Hdec Hin). lia. }
  unfold TransformDecimalAndSpaceToASCII.
  destruct (forallb _ cps).
  - apply (PyLong_FromString_bad cps c Hcps Hbad).
  - destruct (transform_chars_keeps cps c Hcps Hc Hbad) as (c' & Hin' & Hbad').
    apply (PyLong_FromString_bad _ c' Hin' Hbad').
Qed.

Lemma blank_Py_ISSPACE (c : N) : blank c -> Py_ISSPACE c = true.
Proof.
  unfold blank, Py_ISSPACE. intros [[H1 H2]| ->]; [|reflexivity].
  apply N.leb_le in H1, H2. rewrite H1, H2. reflexivity.
Qed.

Lemma blank_no_digit (c : N) :
  blank c -> digit_of c = None /\ (c =? 95)%N = false /\ (c < 128)%N.
Proof.
  unfold blank, digit_of. intros Hb.
  assert (E : ((48 <=? c) && (c <=? 57))%N = false).
  { apply andb_false_iff. left. apply N.leb_gt. lia. }
  rewrite E. repeat split; [apply N.eqb_neq|]; lia.
Qed.

Lemma skip_spaces_blank_app (pre l : list N) :
  Forall blank pre -> skip_spaces (pre ++ l) = skip_spaces l.
Proof.
  induction 1 as [|c pre Hc Hpre IH]; [reflexivity|]. simpl.
  rewrite (blank_Py_ISSPACE c Hc). exact IH.
Qed.

Lemma skip_spaces_blank (post : list N) :
  Forall blank post -> skip_spaces post = [].
Proof.
  intros Hpost. rewrite <- (app_nil_r post).
  rewrite skip_spaces_blank_app by exact Hpost. reflexivity.
Qed.

Lemma digit_of_digit (d : N) :
  (d < 10)%N -> digit_of (48 + d) = Some (Z.of_N d).
Proof.
  intros Hd. unfold digit_of.
  assert (E : ((48 <=? 48 + d) && (48 + d <=? 57))%N = true).
  { apply andb_true_iff. split; apply N.leb_le; lia. }
  rewrite E. f_equal. lia.
Qed.

Lemma scan_digits_digits (ds rest : list N) :
  Forall (fun d => (d < 10)%N) ds ->
  forall acc digits after_digit,
    scan_digits (List.map (fun d => (48 + d)%N) ds ++ rest) acc digits
      after_digit
    = scan_digits rest (fold_left (fun a d => 10 * a + Z.of_N d) ds acc)
        (length ds + digits)
        (match ds with [] => after_digit | _ :: _ => true end).
Proof.
  induction 1 as [|d ds Hd Hds IH]; intros acc digits after_digit;
    [reflexivity|].
  simpl. rewrite (digit_of_digit d Hd), IH. simpl.
  replace (length ds + S digits)%nat with (S (length ds + digits)) by lia.
  destruct ds; reflexivity.
Qed.

Lemma scan_digits_end (post : list N) (acc : Z) (digits : nat) :
  Forall blank post ->
  scan_digits post acc digits true = Some (acc, digits, post).
Proof.
  intros Hpost. destruct Hpost as [|c post Hc Hpost]; [reflexivity|].
  simpl. destruct (blank_no_digit c Hc) as (Hd & H95 & _).
  rewrite Hd, H95. reflexivity.
Qed.

(** A plain literal of at most 640 digits denotes its number, whatever the
    interpreter's limit. *)
Lemma PyLong_FromString_literal (pre : list N) (sg : Sign) (ds post : list N) :
  Forall blank pre -> Forall blank post ->
  ds <> [] -> Forall (fun d => (d < 10)%N) ds -> (length ds <= 640)%nat ->
  PyLong_FromString (literal_bytes pre sg ds post)
  = Some (signed sg (digits_value ds)).
Proof.
  intros Hpre Hpost Hne Hds Hlen.
  destruct ds as [|d ds']; [congruence|]. clear Hne.
  assert (Hd : (d < 10)%N) by (inversion Hds; assumption).
  assert (Hhead : Py_ISSPACE (48 + d) = false).
  { unfold Py_ISSPACE. apply orb_false_iff. split.
    - apply andb_false_iff. right. apply N.leb_gt. lia.
    - apply N.eqb_neq. lia. }
  set (tl := List.map (fun d => (48 + d)%N) ds' ++ post).
  assert (Hscan : forall acc,
            scan_digits ((48 + d)%N :: tl) acc 0 false
            = Some (fold_left (fun a d => 10 * a + Z.of_N d) (d :: ds') acc,
                    length (d :: ds'), post)).
  { intros acc.
    change ((48 + d)%N :: tl)
      with (List.map (fun d => (48 + d)%N) (d :: ds') ++ post).
    rewrite (scan_digits_digits (d :: ds') post Hds).
    rewrite Nat.add_0_r. apply scan_digits_end. exact Hpost. }
  assert (Hcap : ((640 <? length (d :: ds')) && (0 <? int_max_str_digits)
                  && (int_max_str_digits <? length (d :: ds')))%nat = false).
  { assert (E : (640 <? length (d :: ds'))%nat = false)
      by (apply Nat.ltb_ge; exact Hlen).
    rewrite E. reflexivity. }
  assert (E43 : (48 + d =? 43)%N = false) by (apply N.eqb_neq; lia).
  assert (E45 : (48 + d =? 45)%N = false) by (apply N.eqb_neq; lia).
  unfold PyLong_FromString, literal_bytes.
  rewrite (skip_spaces_blank_app pre _ Hpre).
  change (List.map (fun d => (48 + d)%N) (d :: ds') ++ post)
    with ((48 + d)%N :: tl).
  destruct sg; cbn [sign_bytes app skip_spaces].
  - rewrite Hhead, E43, E45. cbn [fst snd].
    rewrite Hscan, Hcap, (skip_spaces_blank post Hpost). reflexivity.
  - change (Py_ISSPACE 43) with false. cbn iota.
    change (43 =? 43)%N with true. cbn iota. cbn [fst snd].
    rewrite Hscan, Hcap, (skip_spaces_blank post Hpost). reflexivity.
  - change (Py_ISSPACE 45) with false. cbn iota.
    change (45 =? 43)%N with false. change (45 =? 45)%N with true.
    cbn iota. cbn [fst snd].
    rewrite Hscan, Hcap, (skip_spaces_blank post Hpost). reflexivity.
Qed.

(** A parameter that is a plain literal of at most 640 digits is the integer
    its digits denote, whatever the interpreter's database and limit. *)
Lemma py_int_literal (s : string) (pre : list N) (sg : Sign) (ds post : list N) :
  bytes s = literal_bytes pre sg ds post ->
  Forall blank pre -> Forall blank post ->
  ds <> [] -> Forall (fun d => (d < 10)%N) ds -> (length ds <= 640)%nat ->
  py_int s = Some (signed sg (digits_value ds)).
Proof.
  intros Hs Hpre Hpost Hne Hds Hlen.
  assert (Hascii : Forall (fun b => (b < 128)%N)
                     (literal_bytes pre sg ds post)).
  { unfold literal_bytes. rewrite !Forall_app. repeat split.
    - eapply Forall_impl; [exact Hpre|]. intros c Hc.
      apply (blank_no_digit c Hc).
    - destruct sg; repeat constructor; lia.
    - apply Forall_forall. intros c Hc. apply list_elem_of_In in Hc.
      apply in_map_iff in Hc as (d & <- & Hd).
      eapply Forall_forall in Hds; [|apply list_elem_of_In; exact Hd].
      simpl in Hds. lia.
    - eapply Forall_impl; [exact Hpost|]. intros c Hc.
      apply (blank_no_digit c Hc). }
  unfold py_int. rewrite Hs, (utf8_decode_ascii _ Hascii).
  unfold TransformDecimalAndSpaceToASCII.
  assert (Hall : forallb (fun ch => (ch <? 128)%N)
                   (literal_bytes pre sg ds post) = true).
  { apply forallb_forall. intros c Hc.
    eapply Forall_forall in Hascii; [|apply list_elem_of_In; exact Hc].
    apply N.ltb_lt. exact Hascii. }
  rewrite Hall.
  apply PyLong_FromString_literal; assumption.
Qed.

(** ** Pagination *)

Lemma ceil_div_last_page (c per : Z) :
  0 <= c -> 0 < per -> - ((- Z.max 1 c) / per) = last_page c per.
Proof.
  intros Hc Hp. unfold last_page.
  destruct (Z.max_spec 1 c) as [[H1 ->]|[H1 ->]].
  - assert (1 <= (c + per - 1) / per) by (apply Z.div_le_lower_bound; lia).
    rewrite Z.max_r by lia.
    Z.div_mod_to_equations. nia.
  - assert (Hc01 : c = 0 \/ c = 1) by lia. destruct Hc01 as [-> | ->].
    + replace ((0 + per - 1) / per) with 0
        by (symmetry; apply Z.div_small; lia).
      simpl. Z.div_mod_to_equations. nia.
    + replace ((1 + per - 1) / per) with 1
        by (symmetry; replace (1 + per - 1) with (1 * per) by lia;
            apply Z.div_mul; lia).
      simpl. Z.div_mod_to_equations. nia.
Qed.

Lemma last_page_pos (c per : Z) : 1 <= last_page c per.
Proof. unfold last_page. lia. Qed.

Lemma num_pages_last_page (pg : Paginator) :
  0 < per_page pg ->
  num_pages pg = inr (last_page (count pg) (per_page pg)).
Proof.
  intros Hp. unfold num_pages.
  destruct (per_page pg =? 0) eqn:E; [apply Z.eqb_eq in E; lia|].
  rewrite ceil_div_last_page; [reflexivity| |exact Hp].
  unfold count. lia.
Qed.

Lemma page_not_an_integer (pg : Paginator) (v : PyVal) :
  as_int v = None -> page pg v = inl PageNotAnInteger.
Proof. intros E. unfold page, validate_number. rewrite E. reflexivity. Qed.

Lemma page_out_of_range (pg : Paginator) (v : PyVal) (k : Z) :
  0 < per_page pg ->
  as_int v = Some k ->
  k < 1 \/ last_page (count pg) (per_page pg) < k ->
  page pg v = inl EmptyPage.
Proof.
  intros Hp E Hout. unfold page, validate_number. rewrite E.
  destruct (k <? 1) eqn:E1; [reflexivity|].
  apply Z.ltb_ge in E1. rewrite (num_pages_last_page pg Hp).
  pose proof (last_page_pos (count pg) (per_page pg)) as Hpos.
  destruct Hout as [Hlt|Hgt]; [lia|].
  apply Z.ltb_lt in Hgt. rewrite Hgt.
  destruct (k =? 1) eqn:E2; [apply Z.eqb_eq in E2; apply Z.ltb_lt in Hgt; lia|].
  reflexivity.
Qed.

Lemma page_in_range (pg : Paginator) (v : PyVal) (k : Z) :
  0 < per_page pg ->
  as_int v = Some k ->
  1 <= k <= last_page (count pg) (per_page pg) ->
  page pg v =
  inr {| page_object_list := posts_of_page (object_list pg) (per_page pg) k;
         number := k |}.
Proof.
  intros Hp E [Hlo Hhi]. unfold page, validate_number. rewrite E.
  destruct (k <? 1) eqn:E1; [apply Z.ltb_lt in E1; lia|].
  rewrite (num_pages_last_page pg Hp).
  destruct (last_page (count pg) (per_page pg) <? k) eqn:E2;
    [apply Z.ltb_lt in E2; lia|].
  simpl. unfold slice, posts_of_page.
  assert (Hb : 0 <= (k - 1) * per_page pg) by nia.
  assert (Hc : 0 <= count pg) by (unfold count; lia).
  destruct (count pg <=? (k - 1) * per_page pg + per_page pg) eqn:E3.
  - apply Z.leb_le in E3.
    destruct ((k - 1) * per_page pg <? 0) eqn:E4; [apply Z.ltb_lt in E4; lia|].
    destruct (count pg <? 0) eqn:E5; [apply Z.ltb_lt in E5; lia|].
    simpl. f_equal. f_equal.
    rewrite !firstn_all2; try reflexivity;
      rewrite length_skipn; unfold count in *; lia.
  - apply Z.leb_gt in E3.
    destruct ((k - 1) * per_page pg <? 0) eqn:E4; [apply Z.ltb_lt in E4; lia|].
    destruct ((k - 1) * per_page pg + per_page pg <? 0) eqn:E5;
      [apply Z.ltb_lt in E5; lia|].
    simpl. f_equal. f_equal. f_equal. lia.
Qed.

(** Whatever is requested, the view gets a page: the requested one when it
    exists, the first one without a number, the last one otherwise. *)
Lemma page_or_fallback_clamped (pg : Paginator) (v : PyVal) :
  0 < per_page pg ->
  let np := last_page (count pg) (per_page pg) in
  let k := clamped_page (as_int v) np in
  page_or_fallback pg v =
  inr {| page_object_list := posts_of_page (object_list pg) (per_page pg) k;
         number := k |}.
Proof.
  intros Hp np k. subst k. unfold page_or_fallback.
  pose proof (last_page_pos (count pg) (per_page pg)) as Hpos. fold np in Hpos.
  destruct (as_int v) as [k|] eqn:E; simpl.
  - destruct (k <? 1) eqn:E1; simpl.
    + apply Z.ltb_lt in E1.
      rewrite (page_out_of_range pg v k Hp E) by (left; exact E1).
      rewrite (num_pages_last_page pg Hp).
      apply page_in_range; [exact Hp|reflexivity|]. fold np. lia.
    + apply Z.ltb_ge in E1. destruct (np <? k) eqn:E2.
      * apply Z.ltb_lt in E2.
        rewrite (page_out_of_range pg v k Hp E) by (right; exact E2).
        rewrite (num_pages_last_page pg Hp).
        apply page_in_range; [exact Hp|reflexivity|]. fold np. lia.
      * apply Z.ltb_ge in E2.
        rewrite (page_in_range pg v k Hp E) by (fold np; lia). reflexivity.
  - rewrite (page_not_an_integer pg v E).
    apply page_in_range; [exact Hp|reflexivity|]. fold np. lia.
Qed.

(** C8: for a post-list request with a positive page size whose posts to
    list are [posts] (all published posts, or those of the requested tag),
    the view renders a page and leaves the world as it is; a missing or
    non-integer page parameter gives page 1, a number beyond the last page
    (or below 1) gives the last page, a number in range gives that page; the
    page holds the posts of its number.  What is an integer is what [int]
    accepts; in particular, whatever the interpreter's Unicode database and
    digit limit, a parameter with an ASCII character that no integer literal
    contains gives page 1, and a parameter made of white space, a sign,
    at most 640 ASCII digits and white space is the number its digits
    denote. *)
Theorem post_list_page_clamped request tag_slug_ posts_on_page w tag posts :
  0 < posts_on_page ->
  list_queryset (db w) tag_slug_ = inr (tag, posts) ->
  let param := GET request !! "page" in
  let np := last_page (Z.of_nat (length posts)) posts_on_page in
  exists pg,
    post_list request tag_slug_ posts_on_page w
    = (inr (mkResponse "blog/post/list.html"
              {| list_page := param; list_posts := pg; list_tag := tag |}),
       w) /\
    page_object_list pg = posts_of_page posts posts_on_page (number pg) /\
    1 <= number pg <= np /\
    (param = None -> number pg = 1) /\
    (forall s, param = Some s -> py_int s = None -> number pg = 1) /\
    (forall s k, param = Some s -> py_int s = Some k -> np < k ->
                 number pg = np) /\
    (forall s k, param = Some s -> py_int s = Some k -> k < 1 ->
                 number pg = np) /\
    (forall s k, param = Some s -> py_int s = Some k -> 1 <= k <= np ->
                 number pg = k) /\
    (forall s c, param = Some s -> In c (bytes s) -> never_in_int c ->
                 number pg = 1) /\
    (forall s pre sg ds post,
       param = Some s ->
       bytes s = literal_bytes pre sg ds post ->
       Forall blank pre -> Forall blank post ->
       ds <> [] -> Forall (fun d => (d < 10)%N) ds ->
       (length ds <= 640)%nat ->
       let k := signed sg (digits_value ds) in
       (np < k -> number pg = np) /\
       (k < 1 -> number pg = np) /\
       (1 <= k <= np -> number pg = k)).
Proof.
  intros Hp Hq param np.
  set (pg := {| object_list := posts; per_page := posts_on_page |}).
  set (v := from_option PyStr PyNone param).
  pose proof (page_or_fallback_clamped pg v Hp) as Hpage. simpl in Hpage.
  change (count pg) with (Z.of_nat (length posts)) in Hpage. fold np in Hpage.
  pose proof (last_page_pos (Z.of_nat (length posts)) posts_on_page) as Hpos.
  fold np in Hpos.
  eexists. split.
  { unfold post_list, bind, get_db, lift, render, ret. simpl.
    rewrite Hq. simpl. fold param. fold pg. fold v. rewrite Hpage.
    reflexivity. }
  simpl. split; [reflexivity|].
  assert (Hcl : forall r, 1 <= clamped_page r np <= np).
  { intros [k|]; simpl; [|lia].
    destruct (k <? 1) eqn:E1; simpl; [lia|].
    destruct (np <? k) eqn:E2; [lia|].
    apply Z.ltb_ge in E1, E2. lia. }
  split; [apply Hcl|]. subst v.
  split; [intros ->; reflexivity|].
  split; [intros s -> Hk; cbn [from_option as_int]; rewrite Hk; reflexivity|].
  assert (Hint : forall s k, param = Some s -> py_int s = Some k ->
            (np < k -> clamped_page (as_int (from_option PyStr PyNone param))
                         np = np) /\
            (k < 1 -> clamped_page (as_int (from_option PyStr PyNone param))
                        np = np) /\
            (1 <= k <= np ->
             clamped_page (as_int (from_option PyStr PyNone param)) np = k)).
  { intros s k -> Hk. cbn [from_option as_int]. rewrite Hk.
    cbn [clamped_page]. repeat split; intros Hrange.
    - destruct (k <? 1); simpl; [reflexivity|].
      apply Z.ltb_lt in Hrange. rewrite Hrange. reflexivity.
    - apply Z.ltb_lt in Hrange. rewrite Hrange. reflexivity.
    - destruct (k <? 1) eqn:E1; [apply Z.ltb_lt in E1; lia|].
      destruct (np <? k) eqn:E2; [apply Z.ltb_lt in E2; lia|]. reflexivity. }
  split; [intros s k Hs Hk; apply (Hint s k Hs Hk)|].
  split; [intros s k Hs Hk; apply (Hint s k Hs Hk)|].
  split; [intros s k Hs Hk; apply (Hint s k Hs Hk)|].
  split.
  - intros s c -> Hin Hnever. cbn [from_option as_int].
    rewrite (py_int_never s c Hin Hnever). reflexivity.
  - intros s pre sg ds post Hs Hbytes Hpre Hpost Hne Hds Hlen.
    apply (Hint s (signed sg (digits_value ds)) Hs).
    apply (py_int_literal s pre sg ds post Hbytes Hpre Hpost Hne Hds Hlen).
Qed.

(** ** Which views show only published posts *)

Lemma list_queryset_published s tag_slug_ tag posts :
  list_queryset s tag_slug_ = inr (tag, posts) ->
  forall p, In p posts -> In p (post_table s) /\ status p = PUBLISHED.
Proof.
  assert (Hpub : forall p, In p (Post_published s) ->
                           In p (post_table s) /\ status p = PUBLISHED).
  { intros p Hp. apply filter_In in Hp as [Hin Hp].
    apply bool_decide_eq_true in Hp. auto. }
  unfold list_queryset. destruct tag_slug_ as [[|c rest]|].
  - intros E. inversion E. subst. exact Hpub.
  - destruct (get_object_or_404 _ _) as [e|t]; [discriminate|].
    intros E. inversion E. subst. intros p Hp.
    apply filter_In in Hp as [Hp _]. apply Hpub. exact Hp.
  - intros E. inversion E. subst. exact Hpub.
Qed.

(** The list view shows published posts only. *)
Lemma post_list_only_published request tag_slug_ posts_on_page w resp w' :
  0 < posts_on_page ->
  post_list request tag_slug_ posts_on_page w = (inr resp, w') ->
  forall p, In p (page_object_list (list_posts (context resp))) ->
            status p = PUBLISHED.
Proof.
  intros Hp Hrun p Hin.
  unfold post_list, bind, get_db, lift, render, ret in Hrun. simpl in Hrun.
  destruct (list_queryset (db w) tag_slug_) as [e|[tag posts]] eqn:Hq;
    [discriminate|]. simpl in Hrun.
  rewrite (page_or_fallback_clamped
             {| object_list := posts; per_page := posts_on_page |} _ Hp)
    in Hrun.
  inversion Hrun. subst resp w'. simpl in Hin.
  unfold posts_of_page in Hin.
  apply list_elem_of_In, subseteq_take, subseteq_drop, list_elem_of_In in Hin.
  eapply (list_queryset_published _ _ _ _ Hq). exact Hin.
Qed.

(** The search view does not look at the status: every post of the table
    that reaches the threshold is a result, drafts too. *)
Lemma post_search_any_status request w query p :
  is_Some (GET request !! "query") ->
  SearchForm_clean (GET request) = inr query ->
  In p (post_table (db w)) ->
  (threshold <= Greatest (TrigramSimilarity (title p) query)
                  (TrigramSimilarity (body p) query))%Q ->
  exists resp,
    post_search request w = (inr resp, w) /\
    In p (map fst (search_results (context resp))).
Proof.
  intros Hq Hf Hin Hle.
  unfold post_search, bind, get_db, render, ret. simpl.
  rewrite bool_decide_eq_true_2 by exact Hq. rewrite Hf. simpl.
  eexists. split; [reflexivity|]. simpl.
  apply in_map_iff. eexists (p, _). split; [reflexivity|].
  rewrite <- list_elem_of_In, merge_sort_Permutation, list_elem_of_In.
  apply filter_In. split; [|apply Qle_bool_iff; exact Hle].
  apply in_map_iff. exists p. split; [reflexivity|exact Hin].
Qed.

(** The detail view shows a published post and published similar posts. *)
Lemma post_detail_only_published request y m d sl n w resp w' :
  post_detail request y m d sl n w = (inr resp, w') ->
  status (detail_post (context resp)) = PUBLISHED /\
  forall c k, In (c, k) (detail_similar_posts (context resp)) ->
              status c = PUBLISHED.
Proof.
  intros Hrun.
  unfold post_detail, bind, get_db, lift, render, ret in Hrun. simpl in Hrun.
  destruct (detail_lookup (db w) y m d sl) as [e|p] eqn:Hl; [discriminate|].
  assert (Hpub : status p = PUBLISHED).
  { apply get_object_or_404_sound in Hl as [_ Hc].
    apply detail_cond_spec in Hc. apply Hc. }
  assert (Hsim : forall l, similar_posts (db w) p n = inr l ->
                           forall c k, In (c, k) l -> status c = PUBLISHED).
  { intros l Hs c k Hin. destruct (Z_lt_le_dec n 0) as [Hneg|Hn].
    - unfold similar_posts, slice_to in Hs. apply Z.ltb_lt in Hneg.
      rewrite Hneg in Hs. discriminate.
    - destruct (similar_posts_full (db w) p n Hn) as (full & Hs' & Hchar & _).
      rewrite Hs' in Hs. inversion Hs. subst l.
      apply list_elem_of_In, subseteq_take, list_elem_of_In in Hin.
      apply Hchar in Hin. tauto. }
  destruct (String.eqb (method request) "POST");
    [destruct (CommentForm_clean (POST request)) as [errors|instance]|];
    simpl in Hrun;
    destruct (similar_posts (db w) p n) as [exc|l] eqn:Hs;
    try discriminate; inversion Hrun; subst; simpl;
    (split; [exact Hpub|exact (Hsim l eq_refl)]).
Qed.

(** The share view shows a published post. *)
Lemma post_share_only_published request post_id w resp w' :
  post_share_by_email request post_id w = (inr resp, w') ->
  id (share_post (context resp)) = post_id /\
  status (share_post (context resp)) = PUBLISHED.
Proof.
  intros Hrun.
  unfold post_share_by_email, bind, get_db, lift, try_except, send_mail,
    render, ret in Hrun. simpl in Hrun.
  destruct (share_lookup (db w) post_id) as [e0|p] eqn:Hl; [discriminate|].
  apply share_lookup_sound in Hl as (_ & Hid & Hpub).
  destruct (String.eqb (method request) "POST"); simpl in Hrun.
  - destruct (EmailPostForm_clean (POST request)) as [errors|cd];
      simpl in Hrun.
    + inversion Hrun. subst. simpl. auto.
    + destruct (smtp (share_email request p cd)) as [exc|].
      * destruct (isinstance_Exception exc); simpl in Hrun;
          [|discriminate]. inversion Hrun. subst. simpl. auto.
      * simpl in Hrun. inversion Hrun. subst. simpl. auto.
  - inversion Hrun. subst. simpl. auto.
Qed.

(** Without a valid query no search is made: the result list is empty. *)
Lemma post_search_without_query request w :
  (GET request !! "query" = None \/
   exists errors, SearchForm_clean (GET request) = inl errors) ->
  exists resp,
    post_search request w = (inr resp, w) /\
    search_query (context resp) = None /\
    search_results (context resp) = [].
Proof.
  intros Hcase. unfold post_search, bind, get_db, render, ret. simpl.
  destruct (bool_decide (is_Some (GET request !! "query"))) eqn:Hq.
  - destruct Hcase as [Hnone|[errors Herr]].
    + apply bool_decide_eq_true in Hq. rewrite Hnone in Hq.
      destruct Hq as [x Hx]. discriminate.
    + rewrite Herr. eexists. repeat split.
  - eexists. repeat split.
Qed.

(** ** More on the detail view *)

Lemma similar_posts_ok (s : Store) (post : Post) (n : Z) :
  0 <= n -> exists l, similar_posts s post n = inr l.
Proof.
  intros Hn. destruct (similar_posts_full s post n Hn) as (full & E & _).
  eexists. exact E.
Qed.

(** The whole run of [post_detail] once the post is resolved and the similar
    posts are sliced. *)
Lemma post_detail_run request y m d sl n w p l :
  detail_lookup (db w) y m d sl = inr p ->
  similar_posts (db w) p n = inr l ->
  post_detail request y m d sl n w =
  if String.eqb (method request) "POST" then
    match CommentForm_clean (POST request) with
    | inr instance =>
      let w' := (Comment_save (set_post instance p) w).2 in
      (inr (mkResponse "blog/post/detail.html"
              {| detail_post := p;
                 detail_comments := active_comments (db w') p;
                 detail_new_comment := Some (set_post instance p);
                 detail_comment_form := Some (Bound (POST request) []);
                 detail_similar_posts := l |}), w')
    | inl _ =>
      (inr (mkResponse "blog/post/detail.html"
              {| detail_post := p;
                 detail_comments := active_comments (db w) p;
                 detail_new_comment := None;
                 detail_comment_form := Some Unbound;
                 detail_similar_posts := l |}), w)
    end
  else
    (inr (mkResponse "blog/post/detail.html"
            {| detail_post := p;
               detail_comments := active_comments (db w) p;
               detail_new_comment := None;
               detail_comment_form := None;
               detail_similar_posts := l |}), w).
Proof.
  intros Hl Hs. unfold post_detail, bind, get_db, lift, render, ret. simpl.
  rewrite Hl.
  destruct (String.eqb (method request) "POST");
    [destruct (CommentForm_clean (POST request)) as [errors|instance]|];
    simpl; rewrite Hs; reflexivity.
Qed.

(** X1: a request to the detail view whose method is not POST writes
    nothing and gets no comment form at all: [comment_form] stays [None], as
    does [new_comment]; the comments shown are the active comments of the
    post. *)
Theorem post_detail_get_no_form request y m d sl n w p :
  method request <> "POST" ->
  detail_lookup (db w) y m d sl = inr p ->
  0 <= n ->
  exists resp,
    post_detail request y m d sl n w = (inr resp, w) /\
    detail_post (context resp) = p /\
    detail_comment_form (context resp) = None /\
    detail_new_comment (context resp) = None /\
    detail_comments (context resp) = active_comments (db w) p.
Proof.
  intros Hm Hl Hn. destruct (similar_posts_ok (db w) p n Hn) as [l Hs].
  rewrite (post_detail_run request y m d sl n w p l Hl Hs).
  apply String.eqb_neq in Hm. rewrite Hm.
  eexists. repeat split.
Qed.

(** X2: after a comment POST that validates, the template gets the saved
    comment as [new_comment], the bound form without errors, and a comment
    list read after the save: the active comments the post had before,
    followed by the new comment when it is active. *)
Theorem post_detail_valid_post_shows_comment request y m d sl n w p instance :
  method request = "POST" ->
  CommentForm_clean (POST request) = inr instance ->
  detail_lookup (db w) y m d sl = inr p ->
  0 <= n ->
  exists resp w',
    post_detail request y m d sl n w = (inr resp, w') /\
    detail_new_comment (context resp) = Some (set_post instance p) /\
    detail_comment_form (context resp) = Some (Bound (POST request) []) /\
    detail_comments (context resp) =
    active_comments (db w) p
    ++ (if active instance then [set_post instance p] else []).
Proof.
  intros Hm Hf Hl Hn. destruct (similar_posts_ok (db w) p n Hn) as [l Hs].
  rewrite (post_detail_run request y m d sl n w p l Hl Hs), Hm, Hf. simpl.
  eexists _, _. split; [reflexivity|]. simpl.
  split; [reflexivity|]. split; [reflexivity|].
  unfold active_comments. simpl. rewrite List.filter_app. simpl.
  rewrite bool_decide_eq_true_2 by reflexivity. simpl.
  destruct (active instance); reflexivity.
Qed.

(** X3: whatever the request, the comments the detail view shows are exactly
    the comments of the store, as it is after the request, that belong to the
    shown post and are active: no inactive comment and no comment of another
    post is shown. *)
Theorem post_detail_comments_of_post request y m d sl n w resp w' :
  post_detail request y m d sl n w = (inr resp, w') ->
  forall c,
    In c (detail_comments (context resp)) <->
    In c (comment_table (db w')) /\
    comment_post c = Some (id (detail_post (context resp))) /\
    active c = true.
Proof.
  intros Hrun c.
  destruct (detail_lookup (db w) y m d sl) as [e|p] eqn:Hl.
  { rewrite (post_detail_lookup_error request y m d sl n w e Hl) in Hrun.
    discriminate. }
  destruct (similar_posts (db w) p n) as [e|l] eqn:Hs.
  { unfold post_detail, bind, get_db, lift, render, ret in Hrun.
    simpl in Hrun. rewrite Hl in Hrun.
    destruct (String.eqb (method request) "POST");
      [destruct (CommentForm_clean (POST request)) as [errors|instance]|];
      simpl in Hrun; rewrite Hs in Hrun; discriminate. }
  rewrite (post_detail_run request y m d sl n w p l Hl Hs) in Hrun.
  assert (Hact : forall s, In c (active_comments s p) <->
                 In c (comment_table s) /\ comment_post c = Some (id p) /\
                 active c = true).
  { intros s. unfold active_comments.
    rewrite filter_In, andb_true_iff, bool_decide_eq_true. reflexivity. }
  destruct (String.eqb (method request) "POST");
    [destruct (CommentForm_clean (POST request)) as [errors|instance]|];
    inversion Hrun; subst; simpl; apply Hact.
Qed.

(** X4: the detail view never sends mail and never touches the post and tag
    tables; of the comment table it keeps every row and adds at most one, at
    the end. *)
Theorem post_detail_frame request y m d sl n w :
  let w' := (post_detail request y m d sl n w).2 in
  send_mail_calls w' = send_mail_calls w /\
  post_table (db w') = post_table (db w) /\
  tag_table (db w') = tag_table (db w) /\
  (comment_table (db w') = comment_table (db w) \/
   exists c, comment_table (db w') = comment_table (db w) ++ [c]).
Proof.
  intros w'. subst w'.
  destruct (detail_lookup (db w) y m d sl) as [e|p] eqn:Hl.
  - rewrite (post_detail_lookup_error request y m d sl n w e Hl). simpl.
    auto.
  - rewrite (post_detail_world request y m d sl n w p Hl).
    destruct (String.eqb (method request) "POST");
      [destruct (CommentForm_clean (POST request)) as [errors|instance]|];
      simpl; auto.
    repeat split. right. eexists. reflexivity.
Qed.

(** X5: a request to the detail view of one post leaves the comment count of
    every other post as it was. *)
Theorem post_detail_other_posts_comments request y m d sl n w p q :
  detail_lookup (db w) y m d sl = inr p ->
  id q <> id p ->
  comment_count (db (post_detail request y m d sl n w).2) q
  = comment_count (db w) q.
Proof.
  intros Hl Hne.
  rewrite (post_detail_world request y m d sl n w p Hl).
  destruct (String.eqb (method request) "POST");
    [destruct (CommentForm_clean (POST request)) as [errors|instance]|];
    try reflexivity.
  unfold comment_count. simpl. rewrite List.filter_app, length_app. simpl.
  rewrite bool_decide_eq_false_2 by congruence. simpl. lia.
Qed.

(** ** More on the share view *)

(** X6: the share view never writes to the store, and it calls [send_mail] at
    most once; the one message goes from the fixed sender to a single
    recipient. *)
Theorem post_share_frame request post_id w :
  let w' := (post_share_by_email request post_id w).2 in
  db w' = db w /\
  (send_mail_calls w' = send_mail_calls w \/
   exists e,
     send_mail_calls w' = send_mail_calls w ++ [e] /\
     from_email e = "django.framework.email.test@gmail.com" /\
     length (recipient_list e) = 1%nat).
Proof.
  intros w'. subst w'.
  unfold post_share_by_email, bind, get_db, lift, try_except, send_mail,
    render, ret. simpl.
  destruct (share_lookup (db w) post_id) as [e0|p]; simpl; [auto|].
  destruct (String.eqb (method request) "POST"); simpl; [|auto].
  destruct (EmailPostForm_clean (POST request)) as [errors|cd]; simpl; [auto|].
  assert (Hone : exists e,
             send_mail_calls w ++ [share_email request p cd]
             = send_mail_calls w ++ [e] /\
             from_email e = "django.framework.email.test@gmail.com" /\
             length (recipient_list e) = 1%nat).
  { eexists. repeat split. }
  destruct (smtp (share_email request p cd)) as [exc|]; simpl;
    [destruct (isinstance_Exception exc); simpl|]; auto.
Qed.

(** X7: for a resolved post, the share view sends nothing unless the request
    is a POST whose form validates.  Any other method gets a blank form; an
    invalid POST gets its bound form back with the errors; in both cases
    sent and sent_failed are False and the world is unchanged. *)
Theorem post_share_no_mail_unless_valid_post request post_id w p :
  share_lookup (db w) post_id = inr p ->
  method request <> "POST" \/
  (exists errors, EmailPostForm_clean (POST request) = inl errors) ->
  exists resp,
    post_share_by_email request post_id w = (inr resp, w) /\
    share_post (context resp) = p /\
    share_sent (context resp) = false /\
    share_sent_failed (context resp) = false /\
    share_form (context resp) =
    if String.eqb (method request) "POST"
    then Bound (POST request)
           (match EmailPostForm_clean (POST request) with
            | inl errors => errors
            | inr _ => []
            end)
    else Unbound.
Proof.
  intros Hl Hcase.
  unfold post_share_by_email, bind, get_db, lift, render, ret. simpl.
  rewrite Hl. simpl.
  destruct (String.eqb (method request) "POST") eqn:Hm.
  - destruct Hcase as [Hne|[errors Herr]].
    + apply String.eqb_eq in Hm. contradiction.
    + rewrite Herr. eexists. repeat split.
  - eexists. repeat split.
Qed.

(** X8: in a response of the share view, sent and sent_failed are never both
    True; one of them is True exactly when [send_mail] was called, and then
    it was called once; when both are False the world is unchanged. *)
Theorem post_share_flags request post_id w resp w' :
  post_share_by_email request post_id w = (inr resp, w') ->
  (share_sent (context resp) && share_sent_failed (context resp) = false) /\
  (share_sent (context resp) || share_sent_failed (context resp) = true ->
   exists e, send_mail_calls w' = send_mail_calls w ++ [e] /\
             (share_sent (context resp) = true <-> smtp e = None)) /\
  (share_sent (context resp) || share_sent_failed (context resp) = false ->
   w' = w).
Proof.
  intros Hrun.
  unfold post_share_by_email, bind, get_db, lift, try_except, send_mail,
    render, ret in Hrun. simpl in Hrun.
  destruct (share_lookup (db w) post_id) as [e0|p]; [discriminate|].
  simpl in Hrun.
  destruct (String.eqb (method request) "POST"); simpl in Hrun.
  - destruct (EmailPostForm_clean (POST request)) as [errors|cd];
      simpl in Hrun.
    + inversion Hrun. subst. simpl. repeat split; auto. discriminate.
    + destruct (smtp (share_email request p cd)) as [exc|] eqn:Hsmtp.
      * destruct (isinstance_Exception exc); simpl in Hrun; [|discriminate].
        inversion Hrun. subst. simpl. repeat split; try discriminate.
        intros _. eexists. split; [reflexivity|]. rewrite Hsmtp.
        split; discriminate.
      * simpl in Hrun. inversion Hrun. subst. simpl.
        repeat split; try discriminate.
        intros _. eexists. split; [reflexivity|]. rewrite Hsmtp.
        split; reflexivity.
  - inversion Hrun. subst. simpl. repeat split; auto. discriminate.
Qed.

(** ** More on the list and search views *)

(** The run of [post_list] once the posts to list are known. *)
Lemma post_list_run request tag_slug_ posts_on_page w tag posts :
  0 < posts_on_page ->
  list_queryset (db w) tag_slug_ = inr (tag, posts) ->
  post_list request tag_slug_ posts_on_page w =
  (inr (mkResponse "blog/post/list.html"
          {| list_page := GET request !! "page";
             list_posts :=
               let k :=
                 clamped_page
                   (as_int (from_option PyStr PyNone (GET request !! "page")))
                   (last_page (Z.of_nat (length posts)) posts_on_page) in
               {| page_object_list := posts_of_page posts posts_on_page k;
                  number := k |};
             list_tag := tag |}), w).
Proof.
  intros Hp Hq.
  pose proof (page_or_fallback_clamped
                {| object_list := posts; per_page := posts_on_page |}
                (from_option PyStr PyNone (GET request !! "page")) Hp)
    as Hpage.
  unfold post_list, bind, get_db, lift, render, ret. simpl.
  rewrite Hq. simpl. rewrite Hpage. reflexivity.
Qed.

(** X9: the list view and the search view only read: whatever the request
    and whatever they return or raise, the world after is the world
    before. *)
Theorem list_and_search_read_only request tag_slug_ posts_on_page w :
  (post_list request tag_slug_ posts_on_page w).2 = w /\
  (post_search request w).2 = w.
Proof.
  split.
  - unfold post_list, bind, get_db, lift, render, ret. simpl.
    destruct (list_queryset (db w) tag_slug_) as [e|filtered]; simpl;
      [reflexivity|].
    destruct (page_or_fallback _ _); reflexivity.
  - unfold post_search, bind, get_db, render, ret. simpl.
    destruct (bool_decide (is_Some (GET request !! "query")));
      [destruct (SearchForm_clean (GET request))|]; reflexivity.
Qed.

(** X10: the list view for a tag slug that is not empty and that no tag of
    the store has raises [Http404], whatever the page parameter. *)
Theorem post_list_unknown_tag_not_found request ts posts_on_page w :
  ts <> EmptyString ->
  (forall t, In t (tag_table (db w)) -> tag_slug t <> ts) ->
  post_list request (Some ts) posts_on_page w = (inl Http404, w).
Proof.
  intros Hne Hnone.
  assert (E : get_object_or_404 (tag_table (db w))
                (fun t => bool_decide (tag_slug t = ts)) = inl Http404).
  { apply get_object_or_404_not_found. intros t Ht.
    apply bool_decide_eq_false. apply Hnone. exact Ht. }
  unfold post_list, bind, get_db, lift, list_queryset. simpl.
  destruct ts as [|c rest]; [contradiction|]. rewrite E. reflexivity.
Qed.

(** X11: the list view for the slug of a tag of the store, with a positive
    page size, renders that tag and a page taken from the posts that are
    published and carry the tag: the base list holds exactly those posts of
    the table, and every post on the page is one of them.  An empty slug is
    no tag. *)
Theorem post_list_tag_filter request ts posts_on_page w t :
  ts <> EmptyString ->
  List.filter (fun t' => bool_decide (tag_slug t' = ts)) (tag_table (db w))
  = [t] ->
  0 < posts_on_page ->
  exists posts pg,
    list_queryset (db w) (Some ts) = inr (Some t, posts) /\
    (forall p, In p posts <->
       In p (post_table (db w)) /\ status p = PUBLISHED /\
       tag_id t ∈ tags p) /\
    post_list request (Some ts) posts_on_page w
    = (inr (mkResponse "blog/post/list.html"
              {| list_page := GET request !! "page"; list_posts := pg;
                 list_tag := Some t |}), w) /\
    (forall p, In p (page_object_list pg) -> In p posts) /\
    post_list request (Some EmptyString) posts_on_page w
    = post_list request None posts_on_page w.
Proof.
  intros Hne Htag Hp.
  apply get_object_or_404_found in Htag.
  set (posts := List.filter (fun p => bool_decide (tag_id t ∈ tags p))
                  (Post_published (db w))).
  assert (Hq : list_queryset (db w) (Some ts) = inr (Some t, posts)).
  { unfold list_queryset. destruct ts as [|c rest]; [contradiction|].
    rewrite Htag. reflexivity. }
  eexists posts, _. split; [exact Hq|]. split; [|split; [|split]].
  - intros p. unfold posts, Post_published, is_published.
    rewrite !filter_In, !bool_decide_eq_true. tauto.
  - apply (post_list_run request (Some ts) posts_on_page w (Some t) posts Hp Hq).
  - simpl. intros p Hin. unfold posts_of_page in Hin.
    apply list_elem_of_In, subseteq_take, subseteq_drop, list_elem_of_In
      in Hin. exact Hin.
  - reflexivity.
Qed.

(** X12: with page size 0 the list view renders nothing: for every page
    parameter the division by the page size raises [ZeroDivisionError], which
    neither handler catches. *)
Theorem post_list_zero_page_size request tag_slug_ w tag posts :
  list_queryset (db w) tag_slug_ = inr (tag, posts) ->
  post_list request tag_slug_ 0 w = (inl ZeroDivisionError, w).
Proof.
  intros Hq. unfold post_list, bind, get_db, lift, render, ret. simpl.
  rewrite Hq. simpl.
  unfold page_or_fallback, page, validate_number, num_pages. simpl.
  destruct (as_int _) as [k|]; simpl; [|reflexivity].
  destruct (k <? 1); reflexivity.
Qed.

(** X13: without a query that validates the search view runs no search: when
    the request has no [query] parameter the form is blank, when the form
    does not validate the bound form is rendered with its errors; the query
    is [None] and the result list is empty. *)
Theorem post_search_needs_valid_query request w :
  GET request !! "query" = None \/
  (exists errors, SearchForm_clean (GET request) = inl errors) ->
  exists resp,
    post_search request w = (inr resp, w) /\
    search_query (context resp) = None /\
    search_results (context resp) = [] /\
    search_form (context resp) =
    match GET request !! "query" with
    | None => Unbound
    | Some _ =>
      Bound (GET request)
        (match SearchForm_clean (GET request) with
         | inl errors => errors
         | inr _ => []
         end)
    end.
Proof.
  intros Hcase. unfold post_search, bind, get_db, render, ret. simpl.
  destruct (GET request !! "query") as [q|] eqn:Hq.
  - rewrite bool_decide_eq_true_2 by (eexists; reflexivity).
    destruct Hcase as [Hnone|[errors Herr]]; [discriminate|].
    rewrite Herr. eexists. repeat split.
  - rewrite bool_decide_eq_false_2 by (intros [x Hx]; discriminate).
    eexists. repeat split.
Qed.

(** X14: a valid query that no post reaches the threshold for, neither by
    title nor by body, gives an empty result list. *)
Theorem post_search_no_match_empty request w query :
  is_Some (GET request !! "query") ->
  SearchForm_clean (GET request) = inr query ->
  (forall p, In p (post_table (db w)) ->
     (TrigramSimilarity (title p) query < 3 # 1000)%Q /\
     (TrigramSimilarity (body p) query < 3 # 1000)%Q) ->
  exists resp,
    post_search request w = (inr resp, w) /\
    search_query (context resp) = Some query /\
    search_results (context resp) = [].
Proof.
  intros Hq Hf Hlow. unfold post_search, bind, get_db, render, ret. simpl.
  rewrite bool_decide_eq_true_2 by exact Hq. rewrite Hf. simpl.
  eexists. split; [reflexivity|]. simpl. split; [reflexivity|].
  assert (Hnil : List.filter (fun r : Post * Q => Qle_bool threshold r.2)
            (List.map
               (fun p => (p, Greatest (TrigramSimilarity (title p) query)
                               (TrigramSimilarity (body p) query)))
               (Post_objects (db w))) = []).
  { apply filter_none. intros [p sc] Hin.
    apply in_map_iff in Hin as (p' & Hpair & Hin). inversion Hpair; subst.
    simpl. destruct (Hlow p Hin) as [Ht Hb].
    destruct (Qle_bool threshold _) eqn:E; [|reflexivity].
    apply Qle_bool_iff in E. unfold threshold in E.
    destruct (Greatest_max (TrigramSimilarity (title p) query)
                (TrigramSimilarity (body p) query)) as (_ & _ & [Hg|Hg]);
      rewrite Hg in E.
    - destruct (Qlt_not_le _ _ Ht E).
    - destruct (Qlt_not_le _ _ Hb E). }
  rewrite Hnil. reflexivity.
Qed.

(** ** Paging through the list *)

Lemma chunks_concat {A} (l : list A) (size_ n : nat) :
  (length l <= n * size_)%nat ->
  concat (List.map (fun i => firstn size_ (skipn (i * size_) l)) (seq 0 n))
  = l.
Proof.
  revert l. induction n as [|n IH]; intros l Hlen.
  - destruct l; [reflexivity|simpl in Hlen; lia].
  - rewrite <- cons_seq, <- seq_shift, List.map_cons, List.map_map.
    rewrite concat_cons.
    change (0 * size_)%nat with 0%nat. cbn [skipn].
    transitivity (firstn size_ l ++ skipn size_ l); [|apply firstn_skipn].
    f_equal.
    rewrite <- (IH (skipn size_ l)) by (rewrite length_skipn; lia).
    f_equal. apply List.map_ext. intros i. rewrite skipn_skipn.
    do 2 f_equal. lia.
Qed.

Lemma last_page_bounds (c per : Z) :
  0 <= c -> 0 < per ->
  (last_page c per - 1) * per <= c <= last_page c per * per /\
  (1 <= c -> (last_page c per - 1) * per < c).
Proof.
  intros Hc Hp. unfold last_page.
  destruct (Z.max_spec 1 ((c + per - 1) / per)) as [[H1 ->]|[H1 ->]];
    Z.div_mod_to_equations; nia.
Qed.

Lemma clamped_page_range (requested : option Z) (np : Z) :
  1 <= np -> 1 <= clamped_page requested np <= np.
Proof.
  intros Hnp. destruct requested as [k|]; simpl; [|lia].
  destruct (k <? 1) eqn:E1; simpl; [lia|].
  destruct (np <? k) eqn:E2; [lia|].
  apply Z.ltb_ge in E1, E2. lia.
Qed.

(** X15: paging through the list view shows every post of the list once and
    in order: with a positive page size, requests whose page parameters parse
    to 1, 2, ... up to the last page are all rendered, each with its own page
    number, and their pages put one after the other are the posts to
    list. *)
Theorem post_list_pages_cover (req : Z -> HttpRequest) tag_slug_ posts_on_page
  w tag posts :
  0 < posts_on_page ->
  list_queryset (db w) tag_slug_ = inr (tag, posts) ->
  let np := last_page (Z.of_nat (length posts)) posts_on_page in
  (forall k, 1 <= k <= np ->
     exists s, GET (req k) !! "page" = Some s /\ py_int s = Some k) ->
  exists pages,
    Forall2
      (fun k pg =>
         post_list (req k) tag_slug_ posts_on_page w
         = (inr (mkResponse "blog/post/list.html"
                   {| list_page := GET (req k) !! "page"; list_posts := pg;
                      list_tag := tag |}), w) /\
         number pg = k)
      (seqZ 1 np) pages /\
    concat (List.map page_object_list pages) = posts.
Proof.
  intros Hp Hq np Hreq.
  exists ((fun k => {| page_object_list := posts_of_page posts posts_on_page k;
                       number := k |}) <$> seqZ 1 np).
  split.
  - apply Forall2_fmap_r, Forall_Forall2_diag, Forall_forall.
    intros k Hk. apply elem_of_seqZ in Hk.
    destruct (Hreq k) as (s & Hs & Hint); [lia|].
    rewrite (post_list_run (req k) tag_slug_ posts_on_page w tag posts Hp Hq).
    fold np. rewrite Hs. cbn [from_option as_int]. rewrite Hint.
    cbn [clamped_page].
    destruct (k <? 1) eqn:E1; [apply Z.ltb_lt in E1; lia|].
    destruct (np <? k) eqn:E2; [apply Z.ltb_lt in E2; lia|].
    split; reflexivity.
  - unfold seqZ. rewrite <- !list_fmap_compose.
    pose proof (last_page_bounds (Z.of_nat (length posts)) posts_on_page
                  ltac:(lia) Hp) as [[_ Hhi] _].
    fold np in Hhi.
    pose proof (last_page_pos (Z.of_nat (length posts)) posts_on_page) as Hpos.
    fold np in Hpos.
    transitivity
      (concat
         (List.map
            (fun i => firstn (Z.to_nat posts_on_page)
                        (skipn (i * Z.to_nat posts_on_page) posts))
            (seq 0 (Z.to_nat np)))); [|apply chunks_concat; nia].
    f_equal. apply List.map_ext. intros i. unfold compose, posts_of_page.
    simpl. do 2 f_equal. nia.
Qed.

(** X16: the page the list view renders is full unless it is the last one:
    a page before the last holds exactly the page size of posts, the last
    page holds the rest, at least one post when there is any post to list,
    and no page holds more than the page size. *)
Theorem post_list_page_sizes request tag_slug_ posts_on_page w tag posts :
  0 < posts_on_page ->
  list_queryset (db w) tag_slug_ = inr (tag, posts) ->
  let np := last_page (Z.of_nat (length posts)) posts_on_page in
  exists pg,
    post_list request tag_slug_ posts_on_page w
    = (inr (mkResponse "blog/post/list.html"
              {| list_page := GET request !! "page"; list_posts := pg;
                 list_tag := tag |}), w) /\
    let shown := Z.of_nat (length (page_object_list pg)) in
    (number pg < np -> shown = posts_on_page) /\
    (number pg = np ->
     shown = Z.of_nat (length posts) - (np - 1) * posts_on_page) /\
    (posts <> [] -> 1 <= shown) /\
    shown <= posts_on_page.
Proof.
  intros Hp Hq np.
  rewrite (post_list_run request tag_slug_ posts_on_page w tag posts Hp Hq).
  fold np. eexists. split; [reflexivity|]. cbn [list_posts context].
  set (k := clamped_page _ np). cbn [page_object_list number].
  pose proof (last_page_pos (Z.of_nat (length posts)) posts_on_page) as Hpos.
  fold np in Hpos.
  pose proof (clamped_page_range
                (as_int (from_option PyStr PyNone (GET request !! "page")))
                np Hpos) as Hk.
  fold k in Hk.
  pose proof (last_page_bounds (Z.of_nat (length posts)) posts_on_page
                ltac:(lia) Hp) as [[Hlo Hhi] Hstrict].
  fold np in Hlo, Hhi, Hstrict.
  unfold posts_of_page. rewrite length_firstn, length_skipn.
  assert (Hb : 0 <= (k - 1) * posts_on_page) by nia.
  assert (Hb' : (k - 1) * posts_on_page <= (np - 1) * posts_on_page) by nia.
  assert (Hfull : k < np ->
            (k - 1) * posts_on_page + posts_on_page
            <= (np - 1) * posts_on_page) by nia.
  assert (Hne : posts <> [] -> 1 <= Z.of_nat (length posts)).
  { destruct posts; [congruence|simpl; lia]. }
  repeat split.
  - intros Hlt. specialize (Hfull Hlt). lia.
  - intros Heq. rewrite Heq in *. lia.
  - intros Hposts. specialize (Hne Hposts). specialize (Hstrict Hne). lia.
  - lia.
Qed.

(** ** The cut of the similar posts *)

(** X17: the cut of the similar posts keeps the best ones.  For a resolved
    post [p] and a limit that is not negative: a published post other than
    [p] that shares more tags with [p] than a listed post is listed too; so
    is one that shares as many tags as a listed post and was published
    strictly later; and when fewer posts than the limit are listed, every
    published post other than [p] that shares a tag with [p] is listed. *)
Theorem post_detail_similar_top_ranked request y m d sl n w p :
  detail_lookup (db w) y m d sl = inr p ->
  0 <= n ->
  exists resp w',
    post_detail request y m d sl n w = (inr resp, w') /\
    let shown := detail_similar_posts (context resp) in
    let candidate c :=
      In c (post_table (db w)) /\ status c = PUBLISHED /\ id c <> id p in
    (forall c k c',
       In (c, k) shown -> candidate c' ->
       (k < size (tags c' ∩ tags p))%nat ->
       In (c', size (tags c' ∩ tags p)) shown) /\
    (forall c k c',
       In (c, k) shown -> candidate c' ->
       size (tags c' ∩ tags p) = k ->
       ~ dt_le (publish c') (publish c) ->
       In (c', k) shown) /\
    ((length shown < Z.to_nat n)%nat ->
     forall c', candidate c' -> shares_a_tag c' p ->
                In (c', size (tags c' ∩ tags p)) shown).
Proof.
  intros Hl Hn.
  destruct (similar_posts_full (db w) p n Hn) as (full & Hs & Hchar & Hsorted).
  assert (Hrun : exists resp w',
             post_detail request y m d sl n w = (inr resp, w') /\
             detail_similar_posts (context resp) = firstn (Z.to_nat n) full).
  { rewrite (post_detail_run request y m d sl n w p _ Hl Hs).
    destruct (String.eqb (method request) "POST");
      [destruct (CommentForm_clean (POST request)) as [errors|instance]|];
      eexists _, _; split; reflexivity. }
  destruct Hrun as (resp & w' & Hrun & Hshown).
  exists resp, w'. split; [exact Hrun|]. cbn zeta. rewrite Hshown.
  set (N := Z.to_nat n).
  assert (Hsplit : forall x, In x full ->
                             In x (firstn N full) \/ In x (skipn N full)).
  { intros x Hx. rewrite <- (firstn_skipn N full) in Hx.
    apply in_app_or in Hx. exact Hx. }
  assert (Hord : forall a b, In a (firstn N full) -> In b (skipn N full) ->
                             by_same_tags_publish a b).
  { intros a b Ha Hb. rewrite <- (firstn_skipn N full) in Hsorted.
    apply StronglySorted_app in Hsorted as (Hcross & _ & _).
    apply Hcross; apply list_elem_of_In; assumption. }
  assert (Hshare : forall c', (1 <= size (tags c' ∩ tags p))%nat ->
                              shares_a_tag c' p).
  { intros c' Hsz.
    destruct (size_pos_elem_of (tags c' ∩ tags p)) as [t Ht]; [lia|].
    exists t. set_solver. }
  split; [|split].
  - intros c k c' Hin (Hc1 & Hc2 & Hc3) Hmore.
    assert (Hfull : In (c', size (tags c' ∩ tags p)) full).
    { apply Hchar. repeat split; auto. apply Hshare. lia. }
    destruct (Hsplit _ Hfull) as [Hfst|Hrest]; [exact Hfst|].
    pose proof (Hord _ _ Hin Hrest) as HR.
    apply by_same_tags_publish_spec in HR. simpl in HR. lia.
  - intros c k c' Hin (Hc1 & Hc2 & Hc3) Hsame Hlater.
    assert (Hk : (1 <= k)%nat).
    { assert (Hcfull : In (c, k) full).
      { apply list_elem_of_In, subseteq_take, list_elem_of_In in Hin.
        exact Hin. }
      apply Hchar in Hcfull as (_ & _ & _ & (t & Ht1 & Ht2) & Hk).
      destruct k as [|k']; [|lia]. symmetry in Hk.
      apply size_empty_inv in Hk.
      assert (Ht : t ∈ tags c ∩ tags p) by (apply elem_of_intersection; auto).
      rewrite Hk in Ht. apply elem_of_empty in Ht. destruct Ht. }
    assert (Hfull : In (c', k) full).
    { apply Hchar. repeat split; auto. apply Hshare. lia. }
    destruct (Hsplit _ Hfull) as [Hfst|Hrest]; [exact Hfst|].
    pose proof (Hord _ _ Hin Hrest) as HR.
    apply by_same_tags_publish_spec in HR. simpl in HR.
    destruct HR as [HR|[_ HR]]; [lia|contradiction].
  - intros Hshort c' (Hc1 & Hc2 & Hc3) Hsh.
    rewrite length_firstn in Hshort. fold N in Hshort.
    rewrite firstn_all2 by lia.
    apply Hchar. repeat split; auto.
Qed.

End Properties.

(** ** The views on the concrete store *)

(** [int] on strings, for CPython: ASCII literals, what is not a literal,
    digits and white space outside ASCII (Arabic-Indic two, fullwidth one,
    no-break space), the ASCII separators that are no white space for [int],
    ill-formed UTF-8, and the limit on the digits. *)
Example py_int_examples :
  let int := py_int (rt := cpython) in
  int "7" = Some 7 /\ int " 12 " = Some 12 /\ int "+3" = Some 3 /\
  int "-5" = Some (-5) /\ int "1_000" = Some 1000 /\ int "007" = Some 7 /\
  int "abc" = None /\ int "1.5" = None /\ int "1__0" = None /\
  int "_1" = None /\ int "1_" = None /\ int "+" = None /\ int "3 4" = None /\
  int "+ 1" = None /\ int EmptyString = None /\
  int "٢" = Some 2 /\ int "1٢" = Some 12 /\ int "１" = Some 1 /\
  int (String (ascii_of_nat 194) (String (ascii_of_nat 160) "2")) = Some 2 /\
  int "²" = None /\
  int (String (ascii_of_nat 28) "1") = None /\
  int (String (ascii_of_nat 160) "2") = None /\
  int (string_of_list_ascii (repeat "1"%char 4300)) <> None /\
  int (string_of_list_ascii (repeat "1"%char 4301)) = None /\
  int (string_of_list_ascii (repeat "0"%char 4301)) = None.
Proof. vm_compute. repeat split; discriminate. Qed.

(** The four published posts, three on a page: pages 1 and 2; "abc" and a
    missing number give page 1, 9999 and 0 give page 2; so does an
    Arabic-Indic two, and a number of 4301 digits, over the limit of the
    interpreter, is no integer and gives page 1. *)
Example post_list_pages :
  let shown request :=
    match (post_list (rt := cpython) request None posts_on_page_default
             demo_world).1 with
    | inr resp => Some (number (list_posts (context resp)),
                        map id (page_object_list (list_posts (context resp))))
    | inl _ => None
    end in
  shown get_request = Some (1, [1; 2; 4]) /\
  shown (page_request "abc") = Some (1, [1; 2; 4]) /\
  shown (page_request "2") = Some (2, [5]) /\
  shown (page_request "9999") = Some (2, [5]) /\
  shown (page_request "0") = Some (2, [5]) /\
  shown (page_request "٢") = Some (2, [5]) /\
  shown (page_request (string_of_list_ascii (repeat "9"%char 4301)))
  = Some (1, [1; 2; 4]).
Proof. vm_compute. repeat split. Qed.

(** The posts similar to [post1]: [post2] shares two tags, [post5] one; the
    draft and the post without tags are not listed. *)
Example similar_posts_of_post1 :
  match similar_posts demo_store post1 4 with
  | inr l => map (fun r => (id r.1, r.2)) l = [(2, 2%nat); (5, 1%nat)]
  | inl _ => False
  end /\
  similar_posts demo_store post4 4 = inr [] /\
  similar_posts demo_store post1 (-1) = inl NegativeIndexing.
Proof. vm_compute. repeat split. Qed.

(** C1: the search view returns a draft.  On a store with the draft
    [draft3], titled "secret plans", the query "secret plans" validates and
    the results contain [draft3], whose status is DRAFT. *)
Example post_search_returns_draft :
  exists resp sc,
    post_search (H := demo_external None) (search_request "secret plans")
      demo_world = (inr resp, demo_world) /\
    In (draft3, sc) (search_results (context resp)) /\
    status draft3 = DRAFT.
Proof.
  eexists _, _. split; [vm_compute; reflexivity|]. split; [|reflexivity].
  left. reflexivity.
Qed.

(** C2: an invalid comment POST gets a blank form back.  The POST carries a
    name but no email and no body; validation fails with two errors and the
    form in the rendered context is the unbound [CommentForm()], not the
    bound form with the submitted data and its errors. *)
Example post_detail_invalid_post_blank_form :
  exists resp errors,
    CommentForm_clean (External := demo_external None)
      (POST invalid_comment_request) = inl errors /\
    errors <> [] /\
    post_detail (H := demo_external None) invalid_comment_request
      2024 1 5 "django-tips" 4 demo_world = (inr resp, demo_world) /\
    detail_comment_form (context resp) = Some Unbound /\
    detail_comment_form (context resp)
    <> Some (Bound (POST invalid_comment_request) errors).
Proof.
  eexists _, _. split; [vm_compute; reflexivity|].
  split; [discriminate|].
  split; [vm_compute; reflexivity|].
  split; [reflexivity|discriminate].
Qed.


(** Against C9 as stated: on a share POST with a valid form for the
    published post 1, a mail dispatch that raises [KeyboardInterrupt] is not
    caught: the exception leaves the view and no response is rendered. *)
Lemma share_keyboard_interrupt_escapes :
  method share_request = "POST" /\
  share_lookup demo_store 1 = inr post1 /\
  EmailPostForm_clean (External := demo_external (Some KeyboardInterrupt))
    (POST share_request) = inr share_data /\
  smtp (External := demo_external (Some KeyboardInterrupt))
    (share_email (H := demo_external (Some KeyboardInterrupt))
       share_request post1 share_data) = Some KeyboardInterrupt /\
  (post_share_by_email (H := demo_external (Some KeyboardInterrupt))
     share_request 1 demo_world).1 = inl KeyboardInterrupt /\
  ~ (exists resp w',
       post_share_by_email (H := demo_external (Some KeyboardInterrupt))
         share_request 1 demo_world = (inr resp, w')).
Proof.
  split; [reflexivity|]. split; [vm_compute; reflexivity|].
  split; [vm_compute; reflexivity|]. split; [reflexivity|].
  split; [vm_compute; reflexivity|].
  intros (resp & w' & Hrun).
  apply (f_equal fst) in Hrun. vm_compute in Hrun. discriminate.
Qed.

(** ** The theorems at concrete inputs *)

(** The similar posts of [post1], requested by GET with the default limit. *)
Lemma post_detail_similar_posts_witness :
  exists resp w' full,
    post_detail (H := demo_external None) get_request 2024 1 5 "django-tips" 4
      demo_world = (inr resp, w') /\
    detail_post (context resp) = post1 /\
    status post1 = PUBLISHED /\
    detail_similar_posts (context resp) = firstn (Z.to_nat 4) full /\
    (forall c k, In (c, k) full <->
       In c (post_table (db demo_world)) /\ status c = PUBLISHED /\
       id c <> id post1 /\
       shares_a_tag c post1 /\ k = size (tags c ∩ tags post1)) /\
    StronglySorted
      (fun a b => (b.2 < a.2)%nat \/
                  (a.2 = b.2 /\ dt_le (publish b.1) (publish a.1))) full /\
    (length (detail_similar_posts (context resp)) <= Z.to_nat 4)%nat /\
    (tags post1 = ∅ -> detail_similar_posts (context resp) = []) /\
    similar_posts_number_default = 4.
Proof.
  apply (post_detail_similar_posts (H := demo_external None) get_request
           2024 1 5 "django-tips" 4 demo_world post1).
  - vm_compute. reflexivity.
  - lia.
Defined.

(** The search for "django" on the concrete store. *)
Lemma post_search_ranking_witness :
  is_Some (GET (search_request "django") !! "query") /\
  exists resp,
    post_search (H := demo_external None) (search_request "django") demo_world
    = (inr resp, demo_world) /\
    search_query (context resp) = Some "django" /\
    StronglySorted (fun a b : Post * Q => (b.2 <= a.2)%Q)
      (search_results (context resp)).
Proof.
  assert (Hq : is_Some (GET (search_request "django") !! "query")).
  { exists "django". vm_compute. reflexivity. }
  split; [exact Hq|].
  destruct (post_search_ranking (H := demo_external None)
              (search_request "django") demo_world "django" Hq)
    as (resp & Hrun & Hquery & _ & _ & _ & Hsorted).
  - vm_compute. reflexivity.
  - exists resp. split; [exact Hrun|]. split; [exact Hquery|exact Hsorted].
Defined.

(** The comment POST without email and body leaves the world as it was. *)
Lemma post_detail_invalid_no_write_witness :
  (post_detail (H := demo_external None) invalid_comment_request
     2024 1 5 "django-tips" 4 demo_world).2 = demo_world.
Proof.
  apply (post_detail_invalid_no_write (H := demo_external None)
           invalid_comment_request 2024 1 5 "django-tips" 4 demo_world
           [("email", "This field is required.");
            ("body", "This field is required.")]).
  - reflexivity.
  - vm_compute. reflexivity.
Defined.

(** A valid comment POST to [post1] whose form instance points to post 2:
    the stored comment belongs to post 1. *)
Lemma post_detail_comment_bound_witness :
  exists c,
    comment_table
      (db (post_detail (H := forged_external) valid_comment_request
             2024 1 5 "django-tips" 4 demo_world).2)
    = comment_table (db demo_world) ++ [c] /\
    comment_post c = Some 1.
Proof.
  destruct (post_detail_comment_bound (H := forged_external)
              valid_comment_request 2024 1 5 "django-tips" 4 demo_world
              {| comment_post := Some 2; comment_name := "Ann";
                 comment_email := "ann@example.org";
                 comment_body := "Thanks"; active := true |} post1)
    as (c & Htable & Hpost & _).
  - reflexivity.
  - vm_compute. reflexivity.
  - vm_compute. reflexivity.
  - exists c. split; [exact Htable|exact Hpost].
Defined.

(** The four published posts, three on a page: "abc" gives page 1, "9999"
    and "-1" give page 2, the last one, " 2 " gives page 2. *)
Lemma post_list_page_clamped_witness :
  let shown request k :=
    exists pg,
      post_list (rt := cpython) request None posts_on_page_default demo_world
      = (inr (mkResponse "blog/post/list.html"
                {| list_page := GET request !! "page";
                   list_posts := pg; list_tag := None |}),
         demo_world) /\
      number pg = k in
  shown (page_request "abc") 1 /\
  shown (page_request "9999") 2 /\
  shown (page_request "-1") 2 /\
  shown (page_request " 2 ") 2.
Proof.
  assert (Hp : 0 < posts_on_page_default) by (unfold posts_on_page_default; lia).
  assert (Hq : list_queryset (db demo_world) None
               = inr (None, [post1; post2; post4; post5]))
    by (vm_compute; reflexivity).
  repeat split.
  - destruct (post_list_page_clamped (rt := cpython) (page_request "abc") None
                posts_on_page_default demo_world None
                [post1; post2; post4; post5] Hp Hq)
      as (pg & Hrun & _ & _ & _ & _ & _ & _ & _ & Hnever & _).
    exists pg. split; [exact Hrun|].
    apply (Hnever "abc" 97%N).
    + vm_compute. reflexivity.
    + vm_compute. left. reflexivity.
    + unfold never_in_int. lia.
  - destruct (post_list_page_clamped (rt := cpython) (page_request "9999")
                None posts_on_page_default demo_world None
                [post1; post2; post4; post5] Hp Hq)
      as (pg & Hrun & _ & _ & _ & _ & _ & _ & _ & _ & Hliteral).
    exists pg. split; [exact Hrun|].
    destruct (Hliteral "9999" [] NoSign [9; 9; 9; 9]%N [])
      as (Hbeyond & _ & _).
    + vm_compute. reflexivity.
    + vm_compute. reflexivity.
    + constructor.
    + constructor.
    + discriminate.
    + repeat constructor.
    + simpl. lia.
    + apply Hbeyond. vm_compute. reflexivity.
  - destruct (post_list_page_clamped (rt := cpython) (page_request "-1")
                None posts_on_page_default demo_world None
                [post1; post2; post4; post5] Hp Hq)
      as (pg & Hrun & _ & _ & _ & _ & _ & _ & _ & _ & Hliteral).
    exists pg. split; [exact Hrun|].
    destruct (Hliteral "-1" [] MinusSign [1]%N [])
      as (_ & Hbelow & _).
    + vm_compute. reflexivity.
    + vm_compute. reflexivity.
    + constructor.
    + constructor.
    + discriminate.
    + repeat constructor.
    + simpl. lia.
    + apply Hbelow. vm_compute. reflexivity.
  - destruct (post_list_page_clamped (rt := cpython) (page_request " 2 ")
                None posts_on_page_default demo_world None
                [post1; post2; post4; post5] Hp Hq)
      as (pg & Hrun & _ & _ & _ & _ & _ & _ & _ & _ & Hliteral).
    exists pg. split; [exact Hrun|].
    destruct (Hliteral " 2 " [32]%N NoSign [2]%N [32]%N)
      as (_ & _ & Hin).
    + vm_compute. reflexivity.
    + vm_compute. reflexivity.
    + constructor; [right; reflexivity|constructor].
    + constructor; [right; reflexivity|constructor].
    + discriminate.
    + repeat constructor.
    + simpl. lia.
    + apply Hin. vm_compute. split; discriminate.
Defined.

(** A share POST whose dispatch raises [SMTPException]. *)
Lemma share_dispatch_flags_witness :
  exists resp w',
    post_share_by_email (H := demo_external (Some SMTPException))
      share_request 1 demo_world = (inr resp, w') /\
    share_sent (context resp) = false /\
    share_sent_failed (context resp) = true.
Proof.
  destruct (share_dispatch_flags (H := demo_external (Some SMTPException))
              share_request 1 demo_world post1 share_data)
    as [Hfail _].
  - reflexivity.
  - vm_compute. reflexivity.
  - vm_compute. reflexivity.
  - destruct (Hfail SMTPException eq_refl eq_refl)
      as (resp & Hrun & _ & Hsent & Hfailed).
    eexists resp, _. split; [exact Hrun|]. split; [exact Hsent|exact Hfailed].
Defined.

(** A share POST for the draft with id 3. *)
Lemma share_unpublished_not_found_witness :
  post_share_by_email (H := demo_external None) share_request 3 demo_world
  = (inl Http404, demo_world).
Proof.
  apply (share_unpublished_not_found (H := demo_external None) share_request 3
           demo_world).
  intros p Hin Hid. simpl in Hin.
  destruct Hin as [<-|[<-|[<-|[<-|[<-|[]]]]]]; simpl in Hid;
    (discriminate Hid || (simpl; discriminate)).
Defined.

(** ** Further properties at concrete inputs *)

(** A GET of the detail page of [post1]. *)
Lemma post_detail_get_no_form_witness :
  exists resp,
    post_detail (H := demo_external None) get_request 2024 1 5 "django-tips" 4
      commented_world = (inr resp, commented_world) /\
    detail_comment_form (context resp) = None.
Proof.
  destruct (post_detail_get_no_form (H := demo_external None) get_request
              2024 1 5 "django-tips" 4 commented_world post1)
    as (resp & Hrun & _ & Hform & _).
  - discriminate.
  - vm_compute. reflexivity.
  - lia.
  - exists resp. split; [exact Hrun|exact Hform].
Defined.

(** A valid comment POST to [post1], which has one active comment. *)
Lemma post_detail_valid_post_shows_comment_witness :
  exists resp w',
    post_detail (H := demo_external None) valid_comment_request
      2024 1 5 "django-tips" 4 commented_world = (inr resp, w') /\
    length (detail_comments (context resp)) = 2%nat.
Proof.
  destruct (post_detail_valid_post_shows_comment (H := demo_external None)
              valid_comment_request 2024 1 5 "django-tips" 4 commented_world
              post1
              {| comment_post := None; comment_name := "Ann";
                 comment_email := "ann@example.org";
                 comment_body := "Thanks"; active := true |})
    as (resp & w' & Hrun & _ & _ & Hcomments).
  - reflexivity.
  - vm_compute. reflexivity.
  - vm_compute. reflexivity.
  - lia.
  - exists resp, w'. split; [exact Hrun|]. rewrite Hcomments. reflexivity.
Defined.

(** The comments shown with [post1]: the inactive one and the one of post 2
    are left out. *)
Lemma post_detail_comments_of_post_witness :
  exists resp w',
    post_detail (H := demo_external None) get_request 2024 1 5 "django-tips" 4
      commented_world = (inr resp, w') /\
    forall c, In c (detail_comments (context resp)) -> active c = true.
Proof.
  eexists _, _. split; [vm_compute; reflexivity|].
  intros c Hin.
  apply (post_detail_comments_of_post (H := demo_external None) get_request
           2024 1 5 "django-tips" 4 commented_world _ _ eq_refl c).
  exact Hin.
Defined.

(** A valid comment POST to [post1] leaves the one comment of [post2]. *)
Lemma post_detail_other_posts_comments_witness :
  comment_count
    (db (post_detail (H := demo_external None) valid_comment_request
           2024 1 5 "django-tips" 4 commented_world).2) post2 = 1%nat.
Proof.
  rewrite (post_detail_other_posts_comments (H := demo_external None)
             valid_comment_request 2024 1 5 "django-tips" 4 commented_world
             post1 post2).
  - reflexivity.
  - vm_compute. reflexivity.
  - discriminate.
Defined.

(** A share POST without destination for [post1]. *)
Lemma post_share_no_mail_unless_valid_post_witness :
  exists resp,
    post_share_by_email (H := demo_external None) invalid_share_request 1
      demo_world = (inr resp, demo_world) /\
    share_sent (context resp) = false.
Proof.
  destruct (post_share_no_mail_unless_valid_post (H := demo_external None)
              invalid_share_request 1 demo_world post1)
    as (resp & Hrun & _ & Hsent & _).
  - vm_compute. reflexivity.
  - right. eexists. vm_compute. reflexivity.
  - exists resp. split; [exact Hrun|exact Hsent].
Defined.

(** A share POST for [post1] whose dispatch succeeds. *)
Lemma post_share_flags_witness :
  exists resp w',
    post_share_by_email (H := demo_external None) share_request 1 demo_world
    = (inr resp, w') /\
    share_sent (context resp) && share_sent_failed (context resp) = false.
Proof.
  eexists _, _. split; [vm_compute; reflexivity|].
  apply (post_share_flags (H := demo_external None) share_request 1
           demo_world _ _ eq_refl).
Defined.

(** The list of a tag that does not exist. *)
Lemma post_list_unknown_tag_not_found_witness :
  post_list (rt := cpython) get_request (Some "rust") 3 demo_world = (inl Http404, demo_world).
Proof.
  apply (post_list_unknown_tag_not_found (rt := cpython) get_request "rust" 3 demo_world).
  - discriminate.
  - intros t Hin. simpl in Hin.
    destruct Hin as [<-|[<-|[<-|[]]]]; discriminate.
Defined.

(** The list of the tag "python", carried by posts 1, 2 and 5. *)
Lemma post_list_tag_filter_witness :
  exists posts,
    list_queryset (db demo_world) (Some "python")
    = inr (Some {| tag_id := 11; tag_slug := "python"; tag_name := "Python" |},
           posts) /\
    length posts = 3%nat.
Proof.
  destruct (post_list_tag_filter (rt := cpython) get_request "python" 3 demo_world
              {| tag_id := 11; tag_slug := "python"; tag_name := "Python" |})
    as (posts & pg & Hq & _).
  - discriminate.
  - vm_compute. reflexivity.
  - lia.
  - exists posts. split; [exact Hq|].
    vm_compute in Hq. inversion Hq. reflexivity.
Defined.

(** The list with page size 0. *)
Lemma post_list_zero_page_size_witness :
  post_list (rt := cpython) (page_request "1") None 0 demo_world
  = (inl ZeroDivisionError, demo_world).
Proof.
  apply (post_list_zero_page_size (rt := cpython) (page_request "1") None demo_world None
           [post1; post2; post4; post5]).
  vm_compute. reflexivity.
Defined.

(** A search request without the [query] parameter. *)
Lemma post_search_needs_valid_query_witness :
  exists resp,
    post_search (H := demo_external None) get_request demo_world
    = (inr resp, demo_world) /\
    search_results (context resp) = [].
Proof.
  destruct (post_search_needs_valid_query (H := demo_external None)
              get_request demo_world)
    as (resp & Hrun & _ & Hres & _).
  - left. vm_compute. reflexivity.
  - exists resp. split; [exact Hrun|exact Hres].
Defined.

(** The search for "xyzq", which shares no trigram with any post. *)
Lemma post_search_no_match_empty_witness :
  exists resp,
    post_search (H := demo_external None) (search_request "xyzq") demo_world
    = (inr resp, demo_world) /\
    search_results (context resp) = [].
Proof.
  destruct (post_search_no_match_empty (H := demo_external None)
              (search_request "xyzq") demo_world "xyzq")
    as (resp & Hrun & _ & Hres).
  - exists "xyzq". vm_compute. reflexivity.
  - vm_compute. reflexivity.
  - intros p Hin. simpl in Hin.
    destruct Hin as [<-|[<-|[<-|[<-|[<-|[]]]]]]; split; vm_compute;
      reflexivity.
  - exists resp. split; [exact Hrun|exact Hres].
Defined.

(** The two pages of the four published posts, three on a page. *)
Lemma post_list_pages_cover_witness :
  exists pages,
    Forall2
      (fun k pg =>
         post_list (rt := cpython) (numbered_page_request k) None 3 demo_world
         = (inr (mkResponse "blog/post/list.html"
                   {| list_page := GET (numbered_page_request k) !! "page";
                      list_posts := pg; list_tag := None |}), demo_world) /\
         number pg = k)
      (seqZ 1 2) pages /\
    concat (List.map page_object_list pages) = [post1; post2; post4; post5].
Proof.
  apply (post_list_pages_cover (rt := cpython) numbered_page_request None 3 demo_world None
           [post1; post2; post4; post5]).
  - lia.
  - vm_compute. reflexivity.
  - intros k Hk.
    replace (last_page (Z.of_nat (length [post1; post2; post4; post5])) 3)
      with 2 in Hk by reflexivity.
    unfold numbered_page_request.
    destruct (k =? 1) eqn:E.
    + apply Z.eqb_eq in E. subst k. exists "1". split; vm_compute; reflexivity.
    + apply Z.eqb_neq in E. assert (k = 2) by lia. subst k.
      exists "2". split; vm_compute; reflexivity.
Defined.

(** Page 2 of the four published posts holds one post. *)
Lemma post_list_page_sizes_witness :
  exists pg,
    post_list (rt := cpython) (page_request "2") None 3 demo_world
    = (inr (mkResponse "blog/post/list.html"
              {| list_page := GET (page_request "2") !! "page";
                 list_posts := pg; list_tag := None |}), demo_world) /\
    Z.of_nat (length (page_object_list pg)) <= 3.
Proof.
  destruct (post_list_page_sizes (rt := cpython) (page_request "2") None 3 demo_world None
              [post1; post2; post4; post5])
    as (pg & Hrun & _ & _ & _ & Hle).
  - lia.
  - vm_compute. reflexivity.
  - exists pg. split; [exact Hrun|exact Hle].
Defined.

(** The similar posts of [post1] cut to one: [post2], which shares two
    tags. *)
Lemma post_detail_similar_top_ranked_witness :
  exists resp w',
    post_detail (H := demo_external None) get_request 2024 1 5 "django-tips" 1
      demo_world = (inr resp, w') /\
    length (detail_similar_posts (context resp)) = 1%nat.
Proof.
  destruct (post_detail_similar_top_ranked (H := demo_external None)
              get_request 2024 1 5 "django-tips" 1 demo_world post1)
    as (resp & w' & Hrun & _).
  - vm_compute. reflexivity.
  - lia.
  - exists resp, w'. split; [exact Hrun|].
    vm_compute in Hrun. inversion Hrun. reflexivity.
Defined.
